(** * ScenarioConfig: a shallow embedding of
      [src/taipy/core/config/scenario_config.py]

    The Python class [ScenarioConfig] is a configuration section holding two
    reference lists (task configs, additional data-node configs), a
    frequency, a comparator mapping and a property bag.  This file embeds
    its constructor, its (de)serialisation, the default merge [_update],
    the comparator operations and the derived data-node set, and states the
    properties of the specification over that embedding.

    Python values are dynamically typed: every attribute of a config can
    hold any value after [_update], so attributes are values of the sum
    type [value] below, and every operation that Python would reject with
    an exception returns [Raise]. *)

From Stdlib Require Import String Ascii ZArith.
From stdpp Require Import gmap strings list fin_maps.

Set Warnings "-register-all".
Set Default Proof Using "Type".
Open Scope string_scope.
Open Scope list_scope.

(* ===================================================================== *)
(** * Collaborator types (defined outside this module)                   *)
(* ===================================================================== *)

(** [taipy.config.common.frequency.Frequency]: an enumeration. *)
Inductive Frequency : Type := DAILY | WEEKLY | MONTHLY | QUARTERLY | YEARLY.

(** Config objects are compared and hashed by identity.  An object is
    modelled by its address together with the attributes this module reads;
    structural equality of the records is then identity. *)
Record DataNodeConfig : Type := mkDataNodeConfig {
  dn_addr : positive;
  dn_id : string;
}.

Record TaskConfig : Type := mkTaskConfig {
  task_addr : positive;
  task_id : string;
  inputs : list DataNodeConfig;
  outputs : list DataNodeConfig;
}.

(** [PipelineConfig] (deprecated): only its [tasks] are read, on migration. *)
Record PipelineConfig : Type := mkPipelineConfig {
  pipeline_id : string;
  pipeline_tasks : list TaskConfig;
}.

#[global] Instance Frequency_eq_dec : EqDecision Frequency.
Proof. solve_decision. Defined.

#[global] Instance DataNodeConfig_eq_dec : EqDecision DataNodeConfig.
Proof. solve_decision. Defined.

#[global] Instance TaskConfig_eq_dec : EqDecision TaskConfig.
Proof. solve_decision. Defined.

Definition Frequency_to_nat (f : Frequency) : nat :=
  match f with
  | DAILY => 1 | WEEKLY => 2 | MONTHLY => 3 | QUARTERLY => 4 | YEARLY => 5
  end.

Definition Frequency_of_nat (n : nat) : option Frequency :=
  match n with
  | 1 => Some DAILY | 2 => Some WEEKLY | 3 => Some MONTHLY
  | 4 => Some QUARTERLY | 5 => Some YEARLY | _ => None
  end.

#[global] Instance Frequency_countable : Countable Frequency.
Proof.
  refine (inj_countable Frequency_to_nat Frequency_of_nat _).
  by intros [].
Defined.

#[global] Instance DataNodeConfig_countable : Countable DataNodeConfig.
Proof.
  refine (inj_countable' (λ d, (dn_addr d, dn_id d))
                         (λ p, mkDataNodeConfig p.1 p.2) _).
  by intros [].
Defined.

#[global] Instance TaskConfig_countable : Countable TaskConfig.
Proof.
  refine (inj_countable'
            (λ t, (task_addr t, task_id t, inputs t, outputs t))
            (λ p, mkTaskConfig p.1.1.1 p.1.1.2 p.1.2 p.2) _).
  by intros [].
Defined.

(* ===================================================================== *)
(** * Python values                                                      *)
(* ===================================================================== *)

(** The hashable values: what can be a dictionary key or a set member.
    [AInt] stands for Python's numbers; [True] and [False] are the numbers
    1 and 0 for every operation used here (truth value, equality, hash). *)
Inductive atom : Type :=
| ANone
| AInt (n : Z)
| AStr (s : string)
| AFrequency (f : Frequency)
| ACallable (c : positive)
| ATask (t : TaskConfig)
| ADataNode (d : DataNodeConfig).

(** A [dict] is either a plain one or a [defaultdict(list)], which answers
    a read of an absent key by inserting an empty list there. *)
Inductive dict_kind : Type := Plain | DefaultDictList.

Inductive value : Type :=
| VAtom (a : atom)
| VList (xs : list value)
| VDict (kind : dict_kind) (items : gmap string value).

Abbreviation VNone := (VAtom ANone).
Abbreviation VInt n := (VAtom (AInt n)).
Abbreviation VStr s := (VAtom (AStr s)).
Abbreviation VFrequency f := (VAtom (AFrequency f)).
Abbreviation VCallable c := (VAtom (ACallable c)).
Abbreviation VTask t := (VAtom (ATask t)).
Abbreviation VDataNode d := (VAtom (ADataNode d)).

#[global] Instance atom_eq_dec : EqDecision atom.
Proof. solve_decision. Defined.

Definition atom_to_sum (a : atom)
  : unit + Z + string + Frequency + positive + TaskConfig + DataNodeConfig :=
  match a with
  | ANone => inl (inl (inl (inl (inl (inl tt)))))
  | AInt n => inl (inl (inl (inl (inl (inr n)))))
  | AStr s => inl (inl (inl (inl (inr s))))
  | AFrequency f => inl (inl (inl (inr f)))
  | ACallable c => inl (inl (inr c))
  | ATask t => inl (inr t)
  | ADataNode d => inr d
  end.

Definition atom_of_sum
  (x : unit + Z + string + Frequency + positive + TaskConfig + DataNodeConfig)
  : atom :=
  match x with
  | inl (inl (inl (inl (inl (inl _))))) => ANone
  | inl (inl (inl (inl (inl (inr n))))) => AInt n
  | inl (inl (inl (inl (inr s)))) => AStr s
  | inl (inl (inl (inr f))) => AFrequency f
  | inl (inl (inr c)) => ACallable c
  | inl (inr t) => ATask t
  | inr d => ADataNode d
  end.

#[global] Instance atom_countable : Countable atom.
Proof.
  refine (inj_countable' atom_to_sum atom_of_sum _).
  by intros [].
Defined.

(** ** Exceptions

    The exceptions this module can end with.  [TypeError] and
    [AttributeError] are told apart as Python does, on the built-in types
    and on the configs: the two differ for the caller of a property, which
    answers an [AttributeError] of its getter through [__getattr__]. *)

Inductive exn : Type :=
| TypeError
| AttributeError
| KeyError
| InvalidConfigurationId.

Inductive result (A : Type) : Type :=
| Ok (a : A)
| Raise (e : exn).
Arguments Ok {A} a.
Arguments Raise {A} e.

#[global] Instance result_ret : MRet result := λ A a, Ok a.
#[global] Instance result_bind : MBind result :=
  λ A B f r, match r with Ok a => f a | Raise e => Raise e end.

(** ** Truth value, iteration, hashing *)

(** [bool(v)]: [None], zero, the empty string, list and dict are falsy;
    config objects, enumeration members and callables are truthy. *)
Definition truthy (v : value) : bool :=
  match v with
  | VNone => false
  | VInt n => negb (n =? 0)%Z
  | VStr s => negb (String.eqb s "")
  | VAtom _ => true
  | VList xs => negb (Nat.eqb (length xs) 0)
  | VDict _ m => negb (Nat.eqb (size m) 0)
  end.

Definition is_None (v : value) : bool :=
  match v with VNone => true | _ => false end.

(** [iter(v)]: the elements a [for] loop visits.  A list gives its items, a
    string its characters, a dict its keys; anything else is not iterable.
    Python visits the keys of a dict in the order of their insertion, which
    the maps of this model do not record: the keys come in the map's own
    enumeration order, and no statement below speaks of the order in which
    the keys of a dict are visited. *)
Definition iter (v : value) : result (list value) :=
  match v with
  | VList xs => Ok xs
  | VStr s => Ok ((λ c, VStr (String c "")) <$> list_ascii_of_string s)
  | VDict _ m => Ok ((λ kv, VStr kv.1) <$> map_to_list m)
  | VAtom _ => Raise TypeError
  end.

(** [hash(v)]: lists and dicts are unhashable. *)
Definition hashable (v : value) : result atom :=
  match v with
  | VAtom a => Ok a
  | VList _ | VDict _ _ => Raise TypeError
  end.

(** [section.get(key, None)] on a string-keyed section of the registry: a
    key that is not a string equals no key of the section. *)
Definition section_get {A : Type} (section : gmap string A) (key : value)
  : result (option A) :=
  a ← hashable key;
  match a with
  | AStr s => Ok (section !! s)
  | _ => Ok None
  end.

(** [d.pop(key, default)]: the value and the dict without the key. *)
Definition dict_pop (key : string) (dflt : value) (d : gmap string value)
  : value * gmap string value :=
  (default dflt (d !! key), delete key d).

(** A task or data-node config answers a name it has no attribute for
    through its own [__getattr__], with the property of that name: [None],
    as the configs of this model carry no properties.  So [o.items()],
    [o.append(x)] and [o.extend(xs)] on a config [o] call [None], a
    [TypeError], where the other values without the method raise
    [AttributeError]. *)
Definition no_such_method {A : Type} (v : value) : result A :=
  match v with
  | VTask _ | VDataNode _ => Raise TypeError
  | _ => Raise AttributeError
  end.

(** [l.append(x)] and [l.extend(xs)] on the object [l]: only a list has
    these methods. *)
Definition list_append (l x : value) : result value :=
  match l with
  | VList items => Ok (VList (items ++ [x]))
  | _ => no_such_method l
  end.

Definition list_extend (l : value) (xs : list value) : result value :=
  match l with
  | VList items => Ok (VList (items ++ xs))
  | _ => no_such_method l
  end.

(** [d[key]] on the contents of a [defaultdict(list)]: an absent key is
    first bound to a new empty list. *)
Definition defaultdict_getitem (d : gmap string value) (key : string)
  : gmap string value * value :=
  match d !! key with
  | Some v => (d, v)
  | None => (<[key := VList []]> d, VList [])
  end.

(** [d.items()]: only a dict has it. *)
Definition dict_items (v : value) : result (list (string * value)) :=
  match v with
  | VDict _ m => Ok (map_to_list m)
  | _ => no_such_method v
  end.

(** [sub in s] on strings. *)
Fixpoint substring_of (sub s : string) : bool :=
  String.prefix sub s ||
  match s with
  | EmptyString => false
  | String _ s' => substring_of sub s'
  end.

(* ===================================================================== *)
(** * The registry and the external routines                             *)
(* ===================================================================== *)

(** [_Config._sections]: the sections of the registry this module reads,
    each a map from id to config; [None] when the registry has no entry of
    that name ([config._sections[name]] then raises [KeyError]). *)
Record _Config : Type := mk_Config {
  _sections_TASK : option (gmap string TaskConfig);
  _sections_DATA_NODE : option (gmap string DataNodeConfig);
  _sections_PIPELINE : option (gmap string PipelineConfig);
}.

(** [config._sections[name]], with [config] possibly [None]. *)
Definition _sections {A : Type} (config : option _Config)
    (name : _Config → option (gmap string A)) : result (gmap string A) :=
  match config with
  | None => Raise AttributeError
  | Some c =>
      match name c with
      | Some section => Ok section
      | None => Raise KeyError
      end
  end.

(** The routines of [taipy.config] this module calls and whose code is
    elsewhere: the rule an identifier must satisfy, the resolution of
    template placeholders in a property value, and the [__copy__] of a task
    config and of a data-node config, which gives a new object. *)
Class Collaborators : Type := {
  valid_identifier : string → bool;
  _replace_templates : value → value;
  copy_task_config : TaskConfig → TaskConfig;
  copy_data_node_config : DataNodeConfig → DataNodeConfig;
}.

(* ===================================================================== *)
(** * ScenarioConfig                                                     *)
(* ===================================================================== *)

Definition name : string := "SCENARIO".
Definition _ID_KEY : string := "id".
Definition _DEFAULT_KEY : string := "default".
Definition _PIPELINES_KEY : string := "pipelines".
Definition _TASKS_KEY : string := "tasks".
Definition _ADDITIONAL_DATA_NODES_KEY : string := "additional_data_nodes".
Definition _FREQUENCY_KEY : string := "frequency".
Definition _COMPARATOR_KEY : string := "comparators".

(** The attributes of an instance.  [_update] stores document values as
    they come, so every attribute but [id] and [_properties] is a [value]. *)
Record ScenarioConfig : Type := mkScenarioConfig {
  id : string;
  _tasks : value;
  _additional_data_nodes : value;
  frequency : value;
  comparators : value;
  _properties : gmap string value;
}.

Section ScenarioConfig.
Context `{!Collaborators}.

(** Modelled from the spec: [_validate_id] is imported from
    [taipy.config.common._validate_id]; per the spec it is
    [validate(string) -> validated string | fails with InvalidIdentifier],
    the rule itself being [valid_identifier]. *)
Definition _validate_id (s : string) : result string :=
  if valid_identifier s then Ok s else Raise InvalidConfigurationId.

(** Modelled from the spec: the [properties] attribute of the base class
    [Section]; per the spec, read access resolves embedded placeholders at
    access time (values are not resolved at construction). *)
Definition properties (self : ScenarioConfig) : gmap string value :=
  _replace_templates <$> _properties self.

(** The loop of [__init__] over [comparators.items()]; [comps] is the
    content of [self.comparators], a [defaultdict(list)]. *)
Fixpoint init_comparators (items : list (string * value))
    (comps : gmap string value) : result (gmap string value) :=
  match items with
  | [] => Ok comps
  | (k, v) :: items' =>
      k' ← _validate_id k;
      let '(comps1, cur) := defaultdict_getitem comps k' in
      cur' ← match v with
              | VList xs => list_extend cur xs
              | _ => list_append cur v
              end;
      init_comparators items' (<[k' := cur']> comps1)
  end.

(** [copy(v)]: the copy of a list or of a dict holds the same items, so it
    is the same value; [None], a number, a string, an enumeration member
    and a function are returned as they are; a config is copied by its own
    [__copy__]. *)
Definition copy (v : value) : value :=
  match v with
  | VTask t => VTask (copy_task_config t)
  | VDataNode x => VDataNode (copy_data_node_config x)
  | _ => v
  end.

(** [ScenarioConfig.__init__].  The last step is [Section.__init__], which
    validates [id] and keeps the keyword arguments as the property bag. *)
Definition __init__ (id : string)
    (tasks additional_data_nodes frequency comparators : value)
    (properties : gmap string value) : result ScenarioConfig :=
  let _tasks :=
    if truthy tasks
    then match tasks with VTask _ => VList [tasks] | _ => copy tasks end
    else VList [] in
  let _additional_data_nodes :=
    if truthy additional_data_nodes
    then match additional_data_nodes with
         | VDataNode _ => VList [additional_data_nodes]
         | _ => copy additional_data_nodes
         end
    else VList [] in
  comps ← (if truthy comparators
           then items ← dict_items comparators; init_comparators items ∅
           else Ok ∅);
  id' ← _validate_id id;
  Ok (mkScenarioConfig id' _tasks _additional_data_nodes frequency
        (VDict DefaultDictList comps) properties).

(** [default_config]: [ScenarioConfig(cls._DEFAULT_KEY, [], [], None, dict())]. *)
Definition default_config : result ScenarioConfig :=
  __init__ _DEFAULT_KEY (VList []) (VList []) VNone (VDict Plain ∅) ∅.

(** [__getattr__], called for a name that is no attribute, and for a
    property whose getter ends in [AttributeError]: the property of that
    name (or [None]) with its placeholders resolved. *)
Definition __getattr__ (self : ScenarioConfig) (item : string) : value :=
  _replace_templates (default VNone (_properties self !! item)).

Definition tasks (self : ScenarioConfig) : value := _tasks self.
Definition task_configs (self : ScenarioConfig) : value := _tasks self.
Definition additional_data_nodes (self : ScenarioConfig) : value :=
  _additional_data_nodes self.
Definition additional_data_node_configs (self : ScenarioConfig) : value :=
  _additional_data_nodes self.

(** [data_node_configs.update(task.inputs)]: [inputs] and [outputs] exist
    on a task config only.  A data-node config answers [inputs] through its
    own [__getattr__] with [None], and [update(None)] is a [TypeError]; the
    other values raise [AttributeError]. *)
Definition as_task (v : value) : result TaskConfig :=
  match v with
  | VTask t => Ok t
  | VDataNode _ => Raise TypeError
  | _ => Raise AttributeError
  end.

(** The loop of [__get_all_unique_data_nodes] over [self._tasks]. *)
Fixpoint update_from_tasks (tasks : list value) (data_node_configs : gset atom)
  : result (gset atom) :=
  match tasks with
  | [] => Ok data_node_configs
  | task :: rest =>
      t ← as_task task;
      update_from_tasks rest
        (data_node_configs ∪ list_to_set (ADataNode <$> inputs t)
                           ∪ list_to_set (ADataNode <$> outputs t))
  end.

(** [__get_all_unique_data_nodes]: builds a new set; [self] is only read. *)
Definition __get_all_unique_data_nodes (self : ScenarioConfig)
  : result (gset atom) :=
  members ← iter (_additional_data_nodes self);
  members ← mapM hashable members;
  tasks ← iter (_tasks self);
  update_from_tasks tasks (list_to_set members).

(** What reading one of the two derived-set properties gives: the set, or
    what [__getattr__] answers. *)
Inductive accessed : Type :=
| Derived (s : gset atom)
| Attribute (v : value).

(** Reading a property of the class under [name]: when the getter ends in
    [AttributeError], Python asks [__getattr__] for [name] instead; any
    other exception reaches the caller. *)
Definition property_get (self : ScenarioConfig) (name : string)
    (getter : result (gset atom)) : result accessed :=
  match getter with
  | Ok s => Ok (Derived s)
  | Raise AttributeError => Ok (Attribute (__getattr__ self name))
  | Raise e => Raise e
  end.

Definition data_node_configs (self : ScenarioConfig) : result accessed :=
  property_get self "data_node_configs" (__get_all_unique_data_nodes self).

Definition data_nodes (self : ScenarioConfig) : result accessed :=
  property_get self "data_nodes" (__get_all_unique_data_nodes self).

(** [_clean]: resets the attributes in place; [comparators] becomes a plain
    [dict()]. *)
Definition _clean (self : ScenarioConfig) : ScenarioConfig :=
  mkScenarioConfig (id self) (VList []) (VList []) VNone (VDict Plain ∅) ∅.

(** [_to_dict]: the four reserved keys, then the property bag, which is
    merged last and wins on a collision. *)
Definition _to_dict (self : ScenarioConfig) : gmap string value :=
  _properties self ∪
  <[_COMPARATOR_KEY := comparators self]>
    (<[_TASKS_KEY := _tasks self]>
       (<[_ADDITIONAL_DATA_NODES_KEY := _additional_data_nodes self]>
          (<[_FREQUENCY_KEY := frequency self]> ∅))).

(** ** Deserialisation

    [_from_dict] pops keys off the caller's document as it goes, and may
    raise half way: its steps are computations that transform the document
    and return a value or an exception.  The document an exception leaves
    behind is the one reached when it was raised. *)

Definition on_dict (A : Type) : Type :=
  gmap string value → gmap string value * result A.

#[global] Instance on_dict_ret : MRet on_dict := λ A a d, (d, Ok a).
#[global] Instance on_dict_bind : MBind on_dict :=
  λ A B f m d,
    match m d with
    | (d', Ok a) => f a d'
    | (d', Raise e) => (d', Raise e)
    end.

(** [as_dict.pop(key, dflt)] *)
Definition pop (key : string) (dflt : value) : on_dict value :=
  λ d, let '(v, d') := dict_pop key dflt d in (d', Ok v).

(** [key in as_dict] *)
Definition contains (key : string) : on_dict bool :=
  λ d, (d, Ok (bool_decide (is_Some (d !! key)))).

(** A step that does not touch the document. *)
Definition pure {A : Type} (r : result A) : on_dict A := λ d, (d, r).

(** The keys left in the document, passed on as [**as_dict]. *)
Definition remaining : on_dict (gmap string value) := λ d, (d, Ok d).

(** The loops [for x_id in x_ids: if x := section.get(x_id, None):
    found.append(x)] over the task and the data-node section (a config that
    is found is an object, hence truthy). *)
Fixpoint resolve {A : Type} (section : gmap string A) (ids : list value)
    (found : list A) : result (list A) :=
  match ids with
  | [] => Ok found
  | x_id :: rest =>
      x ← section_get section x_id;
      resolve section rest
        (match x with Some c => found ++ [c] | None => found end)
  end.

(** The migration loop: [tasks.extend(pipeline_config.tasks)] for every
    pipeline id found in the pipeline section. *)
Fixpoint migrate (pipeline_configs : gmap string PipelineConfig)
    (pipeline_ids : list value) (tasks : list TaskConfig)
  : result (list TaskConfig) :=
  match pipeline_ids with
  | [] => Ok tasks
  | p_id :: rest =>
      p ← section_get pipeline_configs p_id;
      migrate pipeline_configs rest
        (match p with
         | Some pipeline_config => tasks ++ pipeline_tasks pipeline_config
         | None => tasks
         end)
  end.

(** The parameters of [__init__] before [**properties]. *)
Definition parameter_names : list string :=
  ["self"; "id"; "tasks"; "additional_data_nodes"; "frequency"; "comparators"].

(** The call [ScenarioConfig(id, tasks, ..., **properties)]: a keyword
    named like a parameter that the call already binds is a repeated
    argument, a [TypeError]; otherwise [__init__] runs. *)
Definition new_ScenarioConfig (id : string)
    (tasks additional_data_nodes frequency comparators : value)
    (properties : gmap string value) : result ScenarioConfig :=
  if existsb (λ p, bool_decide (is_Some (properties !! p))) parameter_names
  then Raise TypeError
  else __init__ id tasks additional_data_nodes frequency comparators
         properties.

(** [__copy__]: a new instance from shallow copies of the attributes, the
    properties passed as [**copy(self._properties)]. *)
Definition __copy__ (self : ScenarioConfig) : result ScenarioConfig :=
  new_ScenarioConfig (id self) (copy (_tasks self))
    (copy (_additional_data_nodes self)) (frequency self)
    (copy (comparators self)) (_properties self).

(** [_from_dict(as_dict, id, config)]: the document after the call, and the
    new config or the exception. *)
Definition _from_dict (as_dict : gmap string value) (id : string)
    (config : option _Config)
  : gmap string value * result ScenarioConfig :=
  (_ ← pop _ID_KEY (VStr id);
   has_tasks ← contains _TASKS_KEY;
   has_additional_data_nodes ← contains _ADDITIONAL_DATA_NODES_KEY;
   lists ←
     (if has_tasks || has_additional_data_nodes then
        task_ids ← pop _TASKS_KEY VNone;
        tasks ← pure
          (if truthy task_ids then
             task_configs ← _sections config _sections_TASK;
             ids ← iter task_ids;
             resolve task_configs ids []
           else Ok []);
        additional_data_node_ids ← pop _ADDITIONAL_DATA_NODES_KEY VNone;
        additional_data_nodes ← pure
          (if truthy additional_data_node_ids then
             data_node_configs ← _sections config _sections_DATA_NODE;
             ids ← iter additional_data_node_ids;
             resolve data_node_configs ids []
           else Ok []);
        mret (tasks, additional_data_nodes)
      else
        pipeline_ids ← pop _PIPELINES_KEY VNone;
        tasks ← pure
          (if truthy pipeline_ids then
             pipeline_configs ← _sections config _sections_PIPELINE;
             ids ← iter pipeline_ids;
             migrate pipeline_configs ids []
           else Ok []);
        mret (tasks, []));
   frequency ← pop _FREQUENCY_KEY VNone;
   comparators ← pop _COMPARATOR_KEY (VDict Plain ∅);
   properties ← remaining;
   pure (new_ScenarioConfig id
           (VList ((λ t, VTask t) <$> lists.1))
           (VList ((λ d, VDataNode d) <$> lists.2))
           frequency comparators properties)) as_dict.

(** ** Default merge *)

(** [_update(as_dict, default_section)]: the updated config and the
    document after the call.  A default section that is supplied is an
    object, hence truthy, and an object other than [self].  Each of the
    four attributes is popped with the current value as default, then
    replaced by the default section's when it [is None] ([or_default]).
    Nothing here raises.  The values taken from the default section are
    its own objects; what a later mutation of one config shows through the
    other is outside this model of a single config. *)
Definition _update (self : ScenarioConfig) (as_dict : gmap string value)
    (default_section : option ScenarioConfig)
  : ScenarioConfig * gmap string value :=
  let or_default (v : value) (attr : ScenarioConfig → value) : value :=
    match default_section with
    | Some d => if is_None v then attr d else v
    | None => v
    end in
  let '(tasks, as_dict) := dict_pop _TASKS_KEY (_tasks self) as_dict in
  let tasks := or_default tasks _tasks in
  let '(additional_data_nodes, as_dict) :=
    dict_pop _ADDITIONAL_DATA_NODES_KEY (_additional_data_nodes self) as_dict in
  let additional_data_nodes :=
    or_default additional_data_nodes _additional_data_nodes in
  let '(frequency', as_dict) :=
    dict_pop _FREQUENCY_KEY (frequency self) as_dict in
  let frequency' := or_default frequency' frequency in
  let '(comparators', as_dict) :=
    dict_pop _COMPARATOR_KEY (comparators self) as_dict in
  let comparators' := or_default comparators' comparators in
  let props := as_dict ∪ _properties self in
  let props :=
    match default_section with
    | Some d => props ∪ properties d
    | None => props
    end in
  (mkScenarioConfig (id self) tasks additional_data_nodes frequency'
     comparators' props,
   as_dict).

(** ** Comparators *)

(** [self.comparators[key]]: the value read and the config after the
    read, which a [defaultdict] changes when the key is absent. *)
Definition comparators_getitem (self : ScenarioConfig) (key : string)
  : ScenarioConfig * result value :=
  match comparators self with
  | VDict DefaultDictList m =>
      let '(m', v) := defaultdict_getitem m key in
      (mkScenarioConfig (id self) (_tasks self) (_additional_data_nodes self)
         (frequency self) (VDict DefaultDictList m') (_properties self),
       Ok v)
  | VDict Plain m =>
      (self, match m !! key with Some v => Ok v | None => Raise KeyError end)
  | _ => (self, Raise TypeError)
  end.

(** [add_comparator]: [self.comparators[dn_config_id].append(comparator)].
    The appended-to list is the one stored under the key, so the entry
    changes.  When the call raises, [self] is as before (a [defaultdict]
    creates an entry only where the append then succeeds). *)
Definition add_comparator (self : ScenarioConfig) (dn_config_id : string)
    (comparator : value) : result ScenarioConfig :=
  let '(self1, r) := comparators_getitem self dn_config_id in
  l ← r;
  l' ← list_append l comparator;
  match comparators self1 with
  | VDict kind m =>
      Ok (mkScenarioConfig (id self) (_tasks self)
            (_additional_data_nodes self) (frequency self)
            (VDict kind (<[dn_config_id := l']> m)) (_properties self))
  | _ => Raise TypeError
  end.

(** [delete_comparator]:
    [if dn_config_id in self.comparators: del self.comparators[dn_config_id]].
    [in] is key membership on a dict, item membership on a list, substring
    on a string; [del] with a string index works on a dict only. *)
Definition delete_comparator (self : ScenarioConfig) (dn_config_id : string)
  : result ScenarioConfig :=
  match comparators self with
  | VDict kind m =>
      Ok (mkScenarioConfig (id self) (_tasks self)
            (_additional_data_nodes self) (frequency self)
            (VDict kind (delete dn_config_id m)) (_properties self))
  | VList xs =>
      if existsb (λ x, match x with
                       | VStr s => String.eqb s dn_config_id
                       | _ => false
                       end) xs
      then Raise TypeError else Ok self
  | VStr s =>
      if substring_of dn_config_id s then Raise TypeError else Ok self
  | VAtom _ => Raise TypeError
  end.

(** ** Notions used to state the properties *)

(** The ordered-list form of a comparator value given to the constructor:
    a list stays, a single handle becomes a one-element list. *)
Definition comparator_list (v : value) : value :=
  match v with
  | VList xs => VList xs
  | _ => VList [v]
  end.

(** The comparator mapping the constructor builds from its argument. *)
Definition normalized_comparators (v : value) : gmap string value :=
  match v with
  | VDict _ m => comparator_list <$> m
  | _ => ∅
  end.

(** A comparators argument the constructor takes without raising: a falsy
    value, or a dict all of whose keys are valid identifiers. *)
Definition comparators_accepted (v : value) : Prop :=
  truthy v = false ∨
  ∃ kind m, v = VDict kind m ∧ map_Forall (λ k _, valid_identifier k = true) m.

(** The entry of [key] in the comparators, looked at without reading it
    through [defaultdict]. *)
Definition comparators_lookup (self : ScenarioConfig) (key : string)
  : option value :=
  match comparators self with
  | VDict _ m => m !! key
  | _ => None
  end.

(** Every key of the comparator mapping is a valid identifier. *)
Definition comparator_keys_valid (self : ScenarioConfig) : Prop :=
  ∃ kind m, comparators self = VDict kind m ∧
            map_Forall (λ k _, valid_identifier k = true) m.

Definition is_list (v : value) : Prop := ∃ xs, v = VList xs.

(** The ids a document lists under a key: none when the key is absent.
    An id is any hashable value; the ids of the registry are strings. *)
Definition id_list (entry : option value) (ids : list atom) : Prop :=
  match entry with
  | None => ids = []
  | Some v => v = VList ((λ a, VAtom a) <$> ids)
  end.

(** What an id resolves to in a section of the registry. *)
Definition lookup_id {A : Type} (section : gmap string A) (a : atom)
  : option A :=
  match a with
  | AStr s => section !! s
  | _ => None
  end.

(** The registry holds the section [name]: with no registry, or without
    the section, [config._sections[name]] raises. *)
Definition has_section {A : Type} (config : option _Config)
    (name : _Config → option (gmap string A)) : Prop :=
  ∃ c section, config = Some c ∧ name c = Some section.

(** The content of the section [name] of the registry, nothing when there
    is no such section. *)
Definition section_of {A : Type} (config : option _Config)
    (name : _Config → option (gmap string A)) : gmap string A :=
  match config with
  | Some c => default ∅ (name c)
  | None => ∅
  end.

(** The document has the new shape: a tasks or an additional-data-nodes
    key. *)
Definition new_shape (as_dict : gmap string value) : bool :=
  bool_decide (is_Some (as_dict !! _TASKS_KEY)) ||
  bool_decide (is_Some (as_dict !! _ADDITIONAL_DATA_NODES_KEY)).

(** The keys [_from_dict] pops off a document when it returns. *)
Definition popped_keys (as_dict : gmap string value) : list string :=
  [_ID_KEY; _FREQUENCY_KEY; _COMPARATOR_KEY] ++
  (if new_shape as_dict then [_TASKS_KEY; _ADDITIONAL_DATA_NODES_KEY]
   else [_PIPELINES_KEY]).

(** The four keys [_update] and [_to_dict] reserve for the attributes. *)
Definition reserved_keys : list string :=
  [_TASKS_KEY; _ADDITIONAL_DATA_NODES_KEY; _FREQUENCY_KEY; _COMPARATOR_KEY].


(** ** Notions used to state further properties *)

(** The step of [_from_dict] that turns the value popped under the tasks
    or the additional-data-nodes key into configs: nothing for a falsy
    value, else the section of the registry is fetched and the value
    iterated. *)
Definition resolve_entry {A : Type} (config : option _Config)
    (section : _Config → option (gmap string A)) (entry : value)
  : result (list A) :=
  if truthy entry
  then sec ← _sections config section; l ← iter entry; resolve sec l []
  else Ok [].

(** The same step for the value popped under the pipelines key. *)
Definition migrate_entry (config : option _Config) (entry : value)
  : result (list TaskConfig) :=
  if truthy entry
  then sec ← _sections config _sections_PIPELINE;
       l ← iter entry;
       migrate sec l []
  else Ok [].

(** The keys [_from_dict] may pop, whatever the document. *)
Definition document_keys : list string :=
  [_ID_KEY; _TASKS_KEY; _ADDITIONAL_DATA_NODES_KEY; _PIPELINES_KEY;
   _FREQUENCY_KEY; _COMPARATOR_KEY].

(** A task config the registry knows: an entry of its task section, or a
    task of a pipeline of its pipeline section. *)
Definition known_task (config : option _Config) (t : TaskConfig) : Prop :=
  ∃ c, config = Some c ∧
       ((∃ sec k, _sections_TASK c = Some sec ∧ sec !! k = Some t) ∨
        (∃ sec k p, _sections_PIPELINE c = Some sec ∧ sec !! k = Some p ∧
                    t ∈ pipeline_tasks p)).

Definition known_data_node (config : option _Config) (x : DataNodeConfig)
  : Prop :=
  ∃ c sec k, config = Some c ∧ _sections_DATA_NODE c = Some sec ∧
             sec !! k = Some x.

(** The attributes are as the constructor leaves them: two lists, and a
    [defaultdict] of lists under valid keys, with a valid id. *)
Definition constructed (self : ScenarioConfig) : Prop :=
  valid_identifier (id self) = true ∧
  is_list (_tasks self) ∧
  is_list (_additional_data_nodes self) ∧
  ∃ m, comparators self = VDict DefaultDictList m ∧
       map_Forall (λ k v, valid_identifier k = true ∧ is_list v) m.

(** The configs this class hands out: those returned by the constructor
    call, by [default_config], by [_from_dict] and by [__copy__], and those
    obtained from them by [_update] (with no default section, or with one
    that was handed out too), [_clean] and the comparator operations. *)
Inductive produced : ScenarioConfig → Prop :=
| produced_new i tasks adn freq comps props self :
    new_ScenarioConfig i tasks adn freq comps props = Ok self →
    produced self
| produced_default self :
    default_config = Ok self → produced self
| produced_from_dict d i config d' self :
    _from_dict d i config = (d', Ok self) → produced self
| produced_copy s self :
    produced s → __copy__ s = Ok self → produced self
| produced_update s as_dict :
    produced s → produced (_update s as_dict None).1
| produced_update_default s as_dict default_section :
    produced s → produced default_section →
    produced (_update s as_dict (Some default_section)).1
| produced_clean s :
    produced s → produced (_clean s)
| produced_add s key c self :
    produced s → add_comparator s key c = Ok self → produced self
| produced_delete s key self :
    produced s → delete_comparator s key = Ok self → produced self
| produced_read s key :
    produced s → produced (comparators_getitem s key).1.

End ScenarioConfig.

(* ===================================================================== *)
(** * Sample data                                                        *)
(* ===================================================================== *)

(** A validation rule in the style of Python identifiers, for the concrete
    instances below: letters, digits and underscores, not starting with a
    digit, not empty. *)
Definition is_id_char (first : bool) (c : ascii) : bool :=
  let n := nat_of_ascii c in
  (Nat.leb 97 n && Nat.leb n 122) || (Nat.leb 65 n && Nat.leb n 90) ||
  Nat.eqb n 95 || (negb first && Nat.leb 48 n && Nat.leb n 57).

Definition sample_valid_identifier (s : string) : bool :=
  match s with
  | EmptyString => false
  | String c rest =>
      is_id_char true c && forallb (is_id_char false) (list_ascii_of_string rest)
  end.

(** Collaborators for the concrete instances: the rule above, and property
    values that hold no placeholder (resolution returns them as they are). *)
Definition sample_collaborators : Collaborators :=
  {| valid_identifier := sample_valid_identifier;
     _replace_templates := λ v, v;
     copy_task_config :=
       λ t, mkTaskConfig (task_addr t + 1000) (task_id t) (inputs t)
              (outputs t);
     copy_data_node_config :=
       λ x, mkDataNodeConfig (dn_addr x + 1000) (dn_id x) |}.

Definition dn_A : DataNodeConfig := mkDataNodeConfig 1 "A".
Definition dn_B : DataNodeConfig := mkDataNodeConfig 2 "B".
Definition dn_C : DataNodeConfig := mkDataNodeConfig 3 "C".
Definition task_T1 : TaskConfig := mkTaskConfig 4 "T1" [] [dn_A].
Definition task_T2 : TaskConfig := mkTaskConfig 5 "T2" [dn_A] [dn_B].
Definition pipeline_P1 : PipelineConfig := mkPipelineConfig "P1" [task_T1; task_T2].

Definition sample_config : _Config :=
  mk_Config (Some (<["T1" := task_T1]> (<["T2" := task_T2]> ∅)))
            (Some (<["A" := dn_A]> (<["B" := dn_B]> (<["C" := dn_C]> ∅))))
            (Some (<["P1" := pipeline_P1]> ∅)).

Definition f0 : value := VCallable 10.
Definition f1 : value := VCallable 11.
Definition f2 : value := VCallable 12.

(** A scenario config over [T1], [T2] and the additional data node [C]. *)
Definition sample_scenario : ScenarioConfig :=
  mkScenarioConfig "scenario"
    (VList [VTask task_T1; VTask task_T2]) (VList [VDataNode dn_C])
    (VFrequency WEEKLY)
    (VDict DefaultDictList {["A" := VList [f0]]})
    {["note" := VStr "monthly sales"]}.

Definition empty_scenario : ScenarioConfig :=
  mkScenarioConfig "scenario" (VList []) (VList []) VNone
    (VDict DefaultDictList ∅) ∅.

(** A default section with a weekly frequency. *)
Definition default_weekly : ScenarioConfig :=
  mkScenarioConfig "default" (VList []) (VList []) (VFrequency WEEKLY)
    (VDict DefaultDictList ∅) {["owner" := VStr "ops"]}.


Definition new_document : gmap string value :=
  <["tasks" := VList [VStr "T1"; VStr "ghost"; VStr "T2"]]>
    (<["additional_data_nodes" := VList [VStr "nowhere"; VStr "C"]]>
       (<["frequency" := VFrequency WEEKLY]>
          (<["note" := VStr "monthly sales"]> ∅))).

Definition mixed_document : gmap string value :=
  <["tasks" := VList []]> (<["pipelines" := VList [VStr "P1"]]> ∅).

(** A document whose tasks entry is the id itself instead of a list of
    ids, and one with an explicit null under the tasks key. *)
Definition string_document : gmap string value :=
  {["tasks" := VStr "T1"]}.

Definition null_tasks_document : gmap string value :=
  {["tasks" := VNone]}.

(** The sample registry without its pipeline section, and without its
    task section. *)
Definition sample_config_no_pipelines : _Config :=
  mk_Config (_sections_TASK sample_config) (_sections_DATA_NODE sample_config)
    None.

Definition sample_config_no_tasks : _Config :=
  mk_Config None (_sections_DATA_NODE sample_config)
    (_sections_PIPELINE sample_config).

(** A config that lists a task id where a task config belongs, and has a
    property named like one of the accessors:
    [ScenarioConfig("scenario", ["T1"], data_nodes=5)]. *)
Definition ids_scenario : ScenarioConfig :=
  mkScenarioConfig "scenario" (VList [VStr "T1"]) (VList []) VNone
    (VDict DefaultDictList ∅) {["data_nodes" := VInt 5]}.

(** The tasks and the additional data node of [sample_scenario] in another
    order and with repetitions, under another id. *)
Definition shuffled_scenario : ScenarioConfig :=
  mkScenarioConfig "shuffled"
    (VList [VTask task_T2; VTask task_T1; VTask task_T2])
    (VList [VDataNode dn_C; VDataNode dn_C]) VNone
    (VDict DefaultDictList ∅) ∅.

(* ===================================================================== *)
(** * Properties                                                         *)
(* ===================================================================== *)

Section Properties.
Context `{!Collaborators}.

(** ** The loops *)

Lemma section_get_atom {A : Type} (section : gmap string A) (a : atom) :
  section_get section (VAtom a) = Ok (lookup_id section a).
Proof. by destruct a. Qed.

Lemma resolve_atoms {A : Type} (section : gmap string A) (ids : list atom)
    (found : list A) :
  resolve section ((λ a, VAtom a) <$> ids) found
  = Ok (found ++ omap (lookup_id section) ids).
Proof.
  revert found. induction ids as [|a ids IH]; intros found.
  - simpl. by rewrite app_nil_r.
  - rewrite fmap_cons. cbn [resolve]. rewrite section_get_atom. csimpl.
    rewrite IH. destruct (lookup_id section a); simpl; [|done].
    by rewrite <- app_assoc.
Qed.

Lemma migrate_atoms (pipeline_configs : gmap string PipelineConfig)
    (ids : list atom) (found : list TaskConfig) :
  migrate pipeline_configs ((λ a, VAtom a) <$> ids) found
  = Ok (found ++ concat (pipeline_tasks <$>
                           omap (lookup_id pipeline_configs) ids)).
Proof.
  revert found. induction ids as [|a ids IH]; intros found.
  - simpl. by rewrite app_nil_r.
  - rewrite fmap_cons. cbn [migrate]. rewrite section_get_atom. csimpl.
    rewrite IH. destruct (lookup_id pipeline_configs a); simpl; [|done].
    by rewrite <- app_assoc.
Qed.

Lemma init_comparators_fresh (items : list (string * value))
    (comps : gmap string value) :
  NoDup items.*1 →
  Forall (λ kv, valid_identifier kv.1 = true) items →
  (∀ k, k ∈ items.*1 → comps !! k = None) →
  init_comparators items comps
  = Ok (comps ∪ (comparator_list <$> list_to_map items)).
Proof.
  revert comps. induction items as [|[k v] items IH]; intros comps Hnd Hv Hf.
  - simpl. rewrite fmap_empty.
    by rewrite (right_id_L ∅ (∪)).
  - rewrite list_to_map_cons. simpl in *. apply NoDup_cons in Hnd as [Hk Hnd].
    apply Forall_cons in Hv as [Hkv Hv]. simpl in Hkv.
    unfold _validate_id. rewrite Hkv. simpl.
    unfold defaultdict_getitem. rewrite (Hf k) by (apply elem_of_cons; by left).
    assert (∃ l, match v with
                 | VList xs => list_extend (VList []) xs
                 | _ => list_append (VList []) v
                 end = Ok l ∧ l = comparator_list v) as (l & -> & ->).
    { destruct v as [a|xs|kd m]; simpl; eauto. }
    simpl. rewrite insert_insert_eq, IH; [|done|done|].
    + f_equal. rewrite fmap_insert.
      rewrite <- insert_union_l, <- insert_union_r; [done|].
      apply Hf, elem_of_cons. by left.
    + intros k' Hk'. rewrite lookup_insert_ne; [|by intros ->].
      apply Hf, elem_of_cons. by right.
Qed.

Lemma init_comparators_keys (items : list (string * value))
    (comps m : gmap string value) :
  init_comparators items comps = Ok m →
  map_Forall (λ k _, valid_identifier k = true) comps →
  map_Forall (λ k _, valid_identifier k = true) m.
Proof.
  revert comps. induction items as [|[k v] items IH]; intros comps; simpl.
  - by intros [= ->].
  - unfold _validate_id. destruct (valid_identifier k) eqn:Hk; simpl; [|done].
    destruct (defaultdict_getitem comps k) as [comps1 cur] eqn:Hg.
    destruct (match v with
              | VList xs => list_extend cur xs
              | _ => list_append cur v
              end) as [cur'|] eqn:Hc; simpl; [|done].
    intros Hi Hcomps. eapply IH; [done|].
    apply map_Forall_insert_2; [done|].
    unfold defaultdict_getitem in Hg.
    destruct (comps !! k); simplify_eq; [done|].
    by apply map_Forall_insert_2.
Qed.

Lemma init_comparators_lists (items : list (string * value))
    (comps m : gmap string value) :
  init_comparators items comps = Ok m →
  map_Forall (λ _ v, is_list v) comps →
  map_Forall (λ _ v, is_list v) m.
Proof.
  revert comps. induction items as [|[k v] items IH]; intros comps; simpl.
  - by intros [= ->].
  - unfold _validate_id. destruct (valid_identifier k) eqn:Hk; simpl; [|done].
    destruct (defaultdict_getitem comps k) as [comps1 cur] eqn:Hg.
    destruct (match v with
              | VList xs => list_extend cur xs
              | _ => list_append cur v
              end) as [cur'|] eqn:Hc; simpl; [|done].
    intros Hi Hcomps. eapply IH; [done|].
    assert (is_list cur').
    { destruct v, cur as [[]| |]; simpl in Hc; simplify_eq; by eexists. }
    apply map_Forall_insert_2; [done|].
    unfold defaultdict_getitem in Hg.
    destruct (comps !! k); simplify_eq; [done|].
    apply map_Forall_insert_2; [by eexists|done].
Qed.

(** ** The constructor *)

Lemma size_zero_empty (m : gmap string value) :
  Nat.eqb (size m) 0 = true → m = ∅.
Proof. intros Hs. apply map_size_empty_iff. by apply Nat.eqb_eq. Qed.

Lemma init_comparators_accepted (v : value) :
  comparators_accepted v →
  (if truthy v then items ← dict_items v; init_comparators items ∅ else Ok ∅)
  = Ok (normalized_comparators v).
Proof.
  intros Hacc. destruct (truthy v) eqn:Ht.
  - destruct Hacc as [?|(kind & m & -> & Hm)]; [congruence|]. simpl.
    rewrite init_comparators_fresh.
    + rewrite list_to_map_to_list. by rewrite (left_id_L ∅ (∪)).
    + apply NoDup_fst_map_to_list.
    + apply Forall_forall. intros [k x] Hkx. simpl.
      apply elem_of_map_to_list in Hkx. exact (Hm k x Hkx).
    + intros k _. apply lookup_empty.
  - f_equal. destruct v as [a|xs|kind m]; simpl in *; try done.
    apply negb_false_iff, size_zero_empty in Ht. subst m.
    by rewrite fmap_empty.
Qed.

Lemma init_lists (id : string) (ts ds : list value) (freq comps : value)
    (props : gmap string value) :
  valid_identifier id = true →
  comparators_accepted comps →
  __init__ id (VList ts) (VList ds) freq comps props
  = Ok (mkScenarioConfig id (VList ts) (VList ds) freq
          (VDict DefaultDictList (normalized_comparators comps)) props).
Proof.
  intros Hid Hacc. unfold __init__.
  rewrite (init_comparators_accepted _ Hacc). simpl.
  unfold _validate_id. rewrite Hid. simpl.
  by destruct ts, ds.
Qed.

Lemma init_inv (i : string) (tasks adn freq comps : value)
    (props : gmap string value) (self : ScenarioConfig) :
  __init__ i tasks adn freq comps props = Ok self →
  ∃ m, self = mkScenarioConfig i
                (if truthy tasks
                 then match tasks with
                      | VTask _ => VList [tasks]
                      | _ => copy tasks
                      end
                 else VList [])
                (if truthy adn
                 then match adn with
                      | VDataNode _ => VList [adn]
                      | _ => copy adn
                      end
                 else VList [])
                freq (VDict DefaultDictList m) props
       ∧ valid_identifier i = true
       ∧ map_Forall (λ k _, valid_identifier k = true) m
       ∧ map_Forall (λ _ v, is_list v) m.
Proof.
  unfold __init__.
  destruct (if truthy comps
            then items ← dict_items comps; init_comparators items ∅
            else Ok ∅) as [m|] eqn:Hm; simpl; [|done].
  unfold _validate_id. destruct (valid_identifier i) eqn:Hi; simpl; [|done].
  intros [= <-]. exists m. split_and!; try done.
  - destruct (truthy comps); [|simplify_eq; apply map_Forall_empty].
    destruct (dict_items comps) as [items|]; simpl in Hm; [|done].
    eapply init_comparators_keys; [done|apply map_Forall_empty].
  - destruct (truthy comps); [|simplify_eq; apply map_Forall_empty].
    destruct (dict_items comps) as [items|]; simpl in Hm; [|done].
    eapply init_comparators_lists; [done|apply map_Forall_empty].
Qed.

(** ** Deserialisation of documents that list ids *)

Ltac unfold_keys :=
  unfold _ID_KEY, _TASKS_KEY, _ADDITIONAL_DATA_NODES_KEY, _PIPELINES_KEY,
    _FREQUENCY_KEY, _COMPARATOR_KEY in *.

Ltac unfold_on_dict :=
  unfold mbind, on_dict_bind, pop, contains, pure, remaining, dict_pop,
    mret, on_dict_ret.

Lemma no_parameter_name (props : gmap string value) :
  (∀ p, p ∈ parameter_names → props !! p = None) →
  existsb (λ p, bool_decide (is_Some (props !! p))) parameter_names = false.
Proof.
  intros Hp. apply not_true_is_false. intros Hex.
  apply existsb_exists in Hex as (p & Hin & Hsome).
  apply bool_decide_eq_true in Hsome. apply list_elem_of_In in Hin.
  rewrite (Hp p Hin) in Hsome. by destruct Hsome.
Qed.

Lemma ids_resolved {A : Type} (c : _Config)
    (proj : _Config → option (gmap string A)) (section : gmap string A)
    (entry : option value) (ids : list atom) :
  proj c = Some section →
  id_list entry ids →
  (if truthy (default VNone entry)
   then sec ← _sections (Some c) proj;
        l ← iter (default VNone entry);
        resolve sec l []
   else Ok [])
  = Ok (omap (lookup_id section) ids).
Proof.
  intros Hsec Hids. destruct entry as [v|]; simpl in *; subst; [|done].
  destruct ids as [|a ids]; [done|].
  assert (truthy (VList ((λ a0, VAtom a0) <$> a :: ids)) = true) as -> by done.
  remember (a :: ids) as ids' eqn:Hids'. simpl. rewrite Hsec. simpl.
  by rewrite (resolve_atoms section ids').
Qed.

Lemma ids_migrated (c : _Config) (section : gmap string PipelineConfig)
    (entry : option value) (ids : list atom) :
  _sections_PIPELINE c = Some section →
  id_list entry ids →
  (if truthy (default VNone entry)
   then sec ← _sections (Some c) _sections_PIPELINE;
        l ← iter (default VNone entry);
        migrate sec l []
   else Ok [])
  = Ok (concat (pipeline_tasks <$> omap (lookup_id section) ids)).
Proof.
  intros Hsec Hids. destruct entry as [v|]; simpl in *; subst; [|done].
  destruct ids as [|a ids]; [done|].
  assert (truthy (VList ((λ a0, VAtom a0) <$> a :: ids)) = true) as -> by done.
  remember (a :: ids) as ids' eqn:Hids'. simpl. rewrite Hsec. simpl.
  by rewrite (migrate_atoms section ids').
Qed.

Lemma from_dict_new_shape_gen (d : gmap string value) (i : string)
    (config : option _Config) (ts : list TaskConfig) (ds : list DataNodeConfig) :
  new_shape d = true →
  (if truthy (default VNone (d !! _TASKS_KEY))
   then sec ← _sections config _sections_TASK;
        l ← iter (default VNone (d !! _TASKS_KEY));
        resolve sec l []
   else Ok []) = Ok ts →
  (if truthy (default VNone (d !! _ADDITIONAL_DATA_NODES_KEY))
   then sec ← _sections config _sections_DATA_NODE;
        l ← iter (default VNone (d !! _ADDITIONAL_DATA_NODES_KEY));
        resolve sec l []
   else Ok []) = Ok ds →
  valid_identifier i = true →
  comparators_accepted (default (VDict Plain ∅) (d !! _COMPARATOR_KEY)) →
  d !! "self" = None →
  let d' := delete _COMPARATOR_KEY (delete _FREQUENCY_KEY
              (delete _ADDITIONAL_DATA_NODES_KEY (delete _TASKS_KEY
                 (delete _ID_KEY d)))) in
  _from_dict d i config
  = (d', Ok (mkScenarioConfig i
               (VList ((λ t, VTask t) <$> ts))
               (VList ((λ x, VDataNode x) <$> ds))
               (default VNone (d !! _FREQUENCY_KEY))
               (VDict DefaultDictList
                  (normalized_comparators
                     (default (VDict Plain ∅) (d !! _COMPARATOR_KEY))))
               d')).
Proof.
  intros Hshape Hts Hds Hid Hacc Hself d'.
  unfold _from_dict. unfold_on_dict. unfold new_shape in Hshape.
  unfold_keys. rewrite !lookup_delete_ne by done.
  rewrite Hshape. cbv beta iota. rewrite !lookup_delete_ne by done.
  unfold mbind in Hts, Hds. rewrite Hts, Hds.
  cbv beta iota. unfold new_ScenarioConfig.
  rewrite !lookup_delete_ne by done.
  rewrite no_parameter_name; [by rewrite (init_lists _ _ _ _ _ _ Hid Hacc)|].
  intros p Hp. unfold parameter_names in Hp.
  rewrite !elem_of_cons, elem_of_nil in Hp. rewrite !lookup_delete.
  destruct Hp as [->|[->|[->|[->|[->|[->|[]]]]]]]; by repeat case_decide.
Qed.

Lemma from_dict_new_shape (d : gmap string value) (i : string) (c : _Config)
    (tsec : gmap string TaskConfig) (dsec : gmap string DataNodeConfig)
    (tids dids : list atom) :
  new_shape d = true →
  id_list (d !! _TASKS_KEY) tids →
  id_list (d !! _ADDITIONAL_DATA_NODES_KEY) dids →
  _sections_TASK c = Some tsec →
  _sections_DATA_NODE c = Some dsec →
  valid_identifier i = true →
  comparators_accepted (default (VDict Plain ∅) (d !! _COMPARATOR_KEY)) →
  d !! "self" = None →
  let d' := delete _COMPARATOR_KEY (delete _FREQUENCY_KEY
              (delete _ADDITIONAL_DATA_NODES_KEY (delete _TASKS_KEY
                 (delete _ID_KEY d)))) in
  _from_dict d i (Some c)
  = (d', Ok (mkScenarioConfig i
               (VList ((λ t, VTask t) <$> omap (lookup_id tsec) tids))
               (VList ((λ x, VDataNode x) <$> omap (lookup_id dsec) dids))
               (default VNone (d !! _FREQUENCY_KEY))
               (VDict DefaultDictList
                  (normalized_comparators
                     (default (VDict Plain ∅) (d !! _COMPARATOR_KEY))))
               d')).
Proof.
  intros Hshape Ht Hd Htsec Hdsec Hid Hacc Hself.
  apply from_dict_new_shape_gen; try done.
  - by apply ids_resolved.
  - by apply ids_resolved.
Qed.


(** ** What a successful [_from_dict] leaves of the document *)

Lemma new_ScenarioConfig_properties (i : string) (ts ds freq comps : value)
    (props : gmap string value) (self : ScenarioConfig) :
  new_ScenarioConfig i ts ds freq comps props = Ok self →
  _properties self = props.
Proof.
  unfold new_ScenarioConfig. destruct (existsb _ parameter_names); [done|].
  intros (m & -> & _)%init_inv. done.
Qed.

Lemma from_dict_inv (d : gmap string value) (i : string)
    (config : option _Config) (d' : gmap string value) (self : ScenarioConfig) :
  _from_dict d i config = (d', Ok self) →
  d' = (if new_shape d
        then delete _COMPARATOR_KEY (delete _FREQUENCY_KEY
               (delete _ADDITIONAL_DATA_NODES_KEY (delete _TASKS_KEY
                  (delete _ID_KEY d))))
        else delete _COMPARATOR_KEY (delete _FREQUENCY_KEY
               (delete _PIPELINES_KEY (delete _ID_KEY d))))
  ∧ _properties self = d'.
Proof.
  unfold _from_dict. unfold_on_dict. unfold new_shape.
  unfold_keys. rewrite !lookup_delete_ne by done.
  destruct (bool_decide (is_Some (d !! "tasks"))
            || bool_decide (is_Some (d !! "additional_data_nodes")));
    cbv beta iota.
  - repeat match goal with
           | |- context [match ?r with Ok _ => _ | Raise _ => _ end] =>
               destruct r; cbv beta iota
           end; try by intros [= _ ?].
    intros [= <- Hnew]. split; [done|].
    by apply new_ScenarioConfig_properties in Hnew.
  - repeat match goal with
           | |- context [match ?r with Ok _ => _ | Raise _ => _ end] =>
               destruct r; cbv beta iota
           end; try by intros [= _ ?].
    intros [= <- Hnew]. split; [done|].
    by apply new_ScenarioConfig_properties in Hnew.
Qed.

(** ** Lookups in a serialised config *)

Lemma to_dict_lookup_reserved (self : ScenarioConfig) (k : string) :
  _properties self !! k = None →
  _to_dict self !! k =
    if decide (k = _COMPARATOR_KEY) then Some (comparators self)
    else if decide (k = _TASKS_KEY) then Some (_tasks self)
    else if decide (k = _ADDITIONAL_DATA_NODES_KEY)
         then Some (_additional_data_nodes self)
    else if decide (k = _FREQUENCY_KEY) then Some (frequency self)
    else None.
Proof.
  intros Hk. unfold _to_dict. rewrite lookup_union_r by done.
  repeat (case_decide; [subst k; by simplify_map_eq|]).
  by rewrite !lookup_insert_ne by done.
Qed.

(* ===================================================================== *)
(** * The default merge                                                  *)
(* ===================================================================== *)

Lemma update_attributes (self : ScenarioConfig) (as_dict : gmap string value)
    (default_section : option ScenarioConfig) :
  let self' := (_update self as_dict default_section).1 in
  let rule (key : string) (attr : ScenarioConfig → value) : value :=
    let v := default (attr self) (as_dict !! key) in
    match default_section with
    | Some d => if is_None v then attr d else v
    | None => v
    end in
  _tasks self' = rule _TASKS_KEY _tasks ∧
  _additional_data_nodes self'
    = rule _ADDITIONAL_DATA_NODES_KEY _additional_data_nodes ∧
  frequency self' = rule _FREQUENCY_KEY frequency ∧
  comparators self' = rule _COMPARATOR_KEY comparators.
Proof.
  intros self' rule. subst self' rule. unfold _update, dict_pop. simpl.
  unfold_keys. rewrite !lookup_delete_ne by done. done.
Qed.

(** C2.  After [_update], each of the four structured attributes (tasks,
    additional data nodes, frequency, comparators) is: the incoming
    document's value if the key is present, otherwise the prior value; and
    when the value so obtained is [None] and a default section was
    supplied, the default section's attribute.  In particular, with a
    default section whose frequency is [WEEKLY], a document without a
    frequency key and a current frequency of [None], the frequency after
    [_update] is [WEEKLY]. *)
Theorem C2_update_structured_fields (self : ScenarioConfig)
    (as_dict : gmap string value) (default_section : option ScenarioConfig) :
  let self' := (_update self as_dict default_section).1 in
  let rule (key : string) (attr : ScenarioConfig → value) : value :=
    let v := default (attr self) (as_dict !! key) in
    match default_section with
    | Some d => if is_None v then attr d else v
    | None => v
    end in
  _tasks self' = rule _TASKS_KEY _tasks ∧
  _additional_data_nodes self'
    = rule _ADDITIONAL_DATA_NODES_KEY _additional_data_nodes ∧
  frequency self' = rule _FREQUENCY_KEY frequency ∧
  comparators self' = rule _COMPARATOR_KEY comparators ∧
  (∀ d, default_section = Some d →
        frequency d = VFrequency WEEKLY →
        as_dict !! _FREQUENCY_KEY = None →
        frequency self = VNone →
        frequency self' = VFrequency WEEKLY).
Proof.
  intros self' rule. subst self' rule.
  destruct (update_attributes self as_dict default_section)
    as (Ht & Ha & Hf & Hc).
  split_and!; try done.
  intros d -> Hd Hnone Hself. rewrite Hf. simpl.
  by rewrite Hnone, Hself, Hd.
Qed.

(** C3.  After [_update] the property bag is the default section's bag (as
    read through [properties]) overlaid first by the prior bag and then by
    the incoming document's keys other than the four reserved ones: for
    every key an incoming value wins over a prior value, and a prior value
    over the default section's.  With no default section the bag is the
    prior bag overlaid by the incoming non-reserved keys. *)
Theorem C3_update_property_bag (self : ScenarioConfig)
    (as_dict : gmap string value) (default_section : option ScenarioConfig) :
  let self' := (_update self as_dict default_section).1 in
  let incoming := filter (λ kv, kv.1 ∉ reserved_keys) as_dict in
  let default_bag :=
    match default_section with Some d => properties d | None => ∅ end in
  _properties self' = (incoming ∪ _properties self) ∪ default_bag ∧
  ∀ k, _properties self' !! k =
       match (if bool_decide (k ∈ reserved_keys) then None else as_dict !! k) with
       | Some v => Some v
       | None =>
           match _properties self !! k with
           | Some v => Some v
           | None => default_bag !! k
           end
       end.
Proof.
  intros self' incoming default_bag.
  assert (∀ k, incoming !! k =
               if bool_decide (k ∈ reserved_keys) then None else as_dict !! k)
    as Hin.
  { intros k. subst incoming. case_bool_decide as Hk.
    - apply map_lookup_filter_None. right. intros x _. simpl. tauto.
    - destruct (as_dict !! k) as [v|] eqn:Hv.
      + by apply map_lookup_filter_Some.
      + apply map_lookup_filter_None. by left. }
  assert (_properties self' = (incoming ∪ _properties self) ∪ default_bag)
    as Heq.
  { subst self'. unfold _update, dict_pop. simpl.
    assert (delete _COMPARATOR_KEY (delete _FREQUENCY_KEY
              (delete _ADDITIONAL_DATA_NODES_KEY (delete _TASKS_KEY as_dict)))
            = incoming) as ->.
    { apply map_eq. intros k. rewrite Hin. unfold reserved_keys.
      rewrite !lookup_delete. case_bool_decide as Hk.
      - repeat case_decide; try done. exfalso.
        rewrite !elem_of_cons, elem_of_nil in Hk.
        destruct Hk as [->|[->|[->|[->|[]]]]]; done.
      - repeat case_decide; try done; exfalso; apply Hk; subst k;
          rewrite !elem_of_cons; tauto. }
    subst default_bag. destruct default_section; [done|].
    by rewrite (right_id_L ∅ (∪)). }
  split; [done|]. intros k. rewrite Heq, !lookup_union, Hin.
  destruct (if bool_decide (k ∈ reserved_keys) then None else as_dict !! k),
    (_properties self !! k), (default_bag !! k); done.
Qed.

(* ===================================================================== *)
(** * Deserialisation and migration                                      *)
(* ===================================================================== *)


(** C10 (as amended).  When [_from_dict] returns a config, the caller's
    document has lost the id, frequency and comparators keys, and either
    the tasks and additional-data-nodes keys (when it had one of them) or
    else the pipelines key; every other key is still in the document, and
    the document as it is left is the property bag of the result.  In
    particular a pipelines key beside a tasks or additional-data-nodes key
    stays in the document and becomes a property. *)
Theorem C10_from_dict_pops_document (d : gmap string value) (i : string)
    (config : option _Config) (d' : gmap string value) (self : ScenarioConfig) :
  _from_dict d i config = (d', Ok self) →
  (∀ k, d' !! k = if bool_decide (k ∈ popped_keys d) then None else d !! k) ∧
  _properties self = d' ∧
  (new_shape d = true →
   d' !! _PIPELINES_KEY = d !! _PIPELINES_KEY ∧
   _properties self !! _PIPELINES_KEY = d !! _PIPELINES_KEY).
Proof.
  intros [Hd' Hprops]%from_dict_inv.
  assert (∀ k, d' !! k =
               if bool_decide (k ∈ popped_keys d) then None else d !! k) as Hk.
  { intros k. subst d'. unfold popped_keys.
    destruct (new_shape d); rewrite !lookup_delete; simpl.
    - case_bool_decide as Hin.
      + rewrite !elem_of_cons, elem_of_nil in Hin.
        destruct Hin as [->|[->|[->|[->|[->|[]]]]]]; by repeat case_decide.
      + repeat case_decide; try done; exfalso; apply Hin; subst k;
          rewrite !elem_of_cons; tauto.
    - case_bool_decide as Hin.
      + rewrite !elem_of_cons, elem_of_nil in Hin.
        destruct Hin as [->|[->|[->|[->|[]]]]]; by repeat case_decide.
      + repeat case_decide; try done; exfalso; apply Hin; subst k;
          rewrite !elem_of_cons; tauto. }
  split_and!; try done.
  intros Hshape. rewrite Hprops, Hk. unfold popped_keys. rewrite Hshape.
  rewrite bool_decide_eq_false_2; [done|].
  simpl. rewrite !elem_of_cons, elem_of_nil. unfold_keys.
  intros [?|[?|[?|[?|[?|[]]]]]]; discriminate.
Qed.

(* ===================================================================== *)
(** * Serialisation round trip                                           *)
(* ===================================================================== *)

Lemma omap_objects {A B : Type} (section : gmap string A) (obj : B → atom)
    (xs : list B) :
  (∀ x s, obj x ≠ AStr s) →
  omap (lookup_id section) (obj <$> xs) = [].
Proof.
  intros Hobj. induction xs as [|x xs IH]; csimpl; [done|].
  rewrite IH. specialize (Hobj x).
  destruct (obj x) as [| | s | | | |]; simpl; try done. by destruct (Hobj s).
Qed.

Lemma omap_registered {A : Type} (section : gmap string A) (key : A → string)
    (xs : list A) :
  Forall (λ x, section !! key x = Some x) xs →
  omap (lookup_id section) ((λ x, AStr (key x)) <$> xs) = xs.
Proof.
  induction 1 as [|x xs Hx _ IH]; csimpl; [done|]. by rewrite Hx, IH.
Qed.

Lemma normalized_lists (kind : dict_kind) (m : gmap string value) :
  map_Forall (λ _ v, is_list v) m →
  normalized_comparators (VDict kind m) = m.
Proof.
  intros Hm. simpl. apply map_eq. intros k. rewrite lookup_fmap.
  destruct (m !! k) as [v|] eqn:Hk; [|done].
  destruct (Hm k v Hk) as [xs ->]. done.
Qed.

(** C1 (as amended).  [_to_dict] stores under the tasks and
    additional-data-nodes keys the config objects themselves, not their
    ids.  For a config whose attributes are lists of task and data-node
    configs registered under their ids, whose comparators are lists under
    valid keys and whose properties are not named like a constructor
    parameter: [_from_dict] of [_to_dict] itself resolves none of the
    objects (tasks and additional data nodes come back empty, frequency
    and comparators are kept); [_from_dict] of [_to_dict] with every entry
    of the two lists replaced by its id returns a config with the same
    tasks, additional data nodes and frequency, and the same comparators
    as a mapping. *)
Theorem C1_round_trip_through_ids (self : ScenarioConfig) (c : _Config)
    (tsec : gmap string TaskConfig) (dsec : gmap string DataNodeConfig)
    (ts : list TaskConfig) (ds : list DataNodeConfig)
    (kind : dict_kind) (m : gmap string value) :
  _tasks self = VList ((λ t, VTask t) <$> ts) →
  _additional_data_nodes self = VList ((λ x, VDataNode x) <$> ds) →
  comparators self = VDict kind m →
  map_Forall (λ k v, valid_identifier k = true ∧ is_list v) m →
  valid_identifier (id self) = true →
  (∀ k, k ∈ "self" :: reserved_keys → _properties self !! k = None) →
  _sections_TASK c = Some tsec →
  _sections_DATA_NODE c = Some dsec →
  Forall (λ t, tsec !! task_id t = Some t) ts →
  Forall (λ x, dsec !! dn_id x = Some x) ds →
  let as_dict := _to_dict self in
  let with_ids :=
    <[_TASKS_KEY := VList ((λ t, VStr (task_id t)) <$> ts)]>
      (<[_ADDITIONAL_DATA_NODES_KEY :=
           VList ((λ x, VStr (dn_id x)) <$> ds)]> as_dict) in
  as_dict !! _TASKS_KEY = Some (VList ((λ t, VTask t) <$> ts)) ∧
  as_dict !! _ADDITIONAL_DATA_NODES_KEY
    = Some (VList ((λ x, VDataNode x) <$> ds)) ∧
  (∃ d' self',
     _from_dict as_dict (id self) (Some c) = (d', Ok self') ∧
     _tasks self' = VList [] ∧
     _additional_data_nodes self' = VList [] ∧
     frequency self' = frequency self ∧
     comparators self' = VDict DefaultDictList m) ∧
  (∃ d' self',
     _from_dict with_ids (id self) (Some c) = (d', Ok self') ∧
     _tasks self' = _tasks self ∧
     _additional_data_nodes self' = _additional_data_nodes self ∧
     frequency self' = frequency self ∧
     comparators self' = VDict DefaultDictList m).
Proof.
  intros Hts Hds Hcomps Hm Hid Hprops Htsec Hdsec Hreg_t Hreg_d as_dict with_ids.
  assert (∀ k, k ∈ "self" :: reserved_keys →
               as_dict !! k =
                 if decide (k = _COMPARATOR_KEY) then Some (comparators self)
                 else if decide (k = _TASKS_KEY) then Some (_tasks self)
                 else if decide (k = _ADDITIONAL_DATA_NODES_KEY)
                      then Some (_additional_data_nodes self)
                 else if decide (k = _FREQUENCY_KEY) then Some (frequency self)
                 else None) as Hlook.
  { intros k Hk. by apply to_dict_lookup_reserved, Hprops. }
  assert (as_dict !! _TASKS_KEY = Some (_tasks self)) as Hdt.
  { rewrite Hlook; [done|]. unfold reserved_keys. rewrite !elem_of_cons. tauto. }
  assert (as_dict !! _ADDITIONAL_DATA_NODES_KEY
          = Some (_additional_data_nodes self)) as Hda.
  { rewrite Hlook; [done|]. unfold reserved_keys. rewrite !elem_of_cons. tauto. }
  assert (as_dict !! _FREQUENCY_KEY = Some (frequency self)) as Hdf.
  { rewrite Hlook; [done|]. unfold reserved_keys. rewrite !elem_of_cons. tauto. }
  assert (as_dict !! _COMPARATOR_KEY = Some (comparators self)) as Hdc.
  { rewrite Hlook; [done|]. unfold reserved_keys. rewrite !elem_of_cons. tauto. }
  assert (as_dict !! "self" = None) as Hself.
  { rewrite Hlook; [done|]. rewrite !elem_of_cons. tauto. }
  assert (comparators_accepted (VDict kind m)) as Hacc.
  { right. exists kind, m. split; [done|]. intros k v Hk. by apply (Hm k v). }
  assert (normalized_comparators (VDict kind m) = m) as Hnorm.
  { apply normalized_lists. intros k v Hk. by apply (Hm k v). }
  rewrite Hts in Hdt. rewrite Hds in Hda. rewrite Hcomps in Hdc.
  split_and!; try done.
  - (* the serialised document itself *)
    assert (new_shape as_dict = true) as Hshape.
    { unfold new_shape. rewrite Hdt. by rewrite bool_decide_eq_true_2. }
    pose proof (from_dict_new_shape as_dict (id self) c tsec dsec
                  ((λ t, ATask t) <$> ts) ((λ x, ADataNode x) <$> ds)
                  Hshape) as Hfd.
    rewrite Hdt, Hda, Hdf, Hdc in Hfd. cbn [from_option Datatypes.id] in Hfd.
    rewrite Hnorm in Hfd.
    rewrite (omap_objects tsec (λ t, ATask t) ts) in Hfd by done.
    rewrite (omap_objects dsec (λ x, ADataNode x) ds) in Hfd by done.
    eexists _, _. split; [apply Hfd; try done|done].
    + simpl. by rewrite <- list_fmap_compose.
    + simpl. by rewrite <- list_fmap_compose.
  - (* the document with ids for objects *)
    assert (with_ids !! _TASKS_KEY
            = Some (VList ((λ t, VStr (task_id t)) <$> ts))) as Hit.
    { apply lookup_insert_eq. }
    assert (with_ids !! _ADDITIONAL_DATA_NODES_KEY
            = Some (VList ((λ x, VStr (dn_id x)) <$> ds))) as Hia.
    { subst with_ids. rewrite lookup_insert_ne by done. apply lookup_insert_eq. }
    assert (with_ids !! _FREQUENCY_KEY = Some (frequency self)) as Hif.
    { subst with_ids. by rewrite !lookup_insert_ne by done. }
    assert (with_ids !! _COMPARATOR_KEY = Some (VDict kind m)) as Hic.
    { subst with_ids. by rewrite !lookup_insert_ne by done. }
    assert (with_ids !! "self" = None) as Hiself.
    { subst with_ids. by rewrite !lookup_insert_ne by done. }
    assert (new_shape with_ids = true) as Hshape.
    { unfold new_shape. rewrite Hit. by rewrite bool_decide_eq_true_2. }
    pose proof (from_dict_new_shape with_ids (id self) c tsec dsec
                  ((λ t, AStr (task_id t)) <$> ts)
                  ((λ x, AStr (dn_id x)) <$> ds) Hshape) as Hfd.
    rewrite Hit, Hia, Hif, Hic in Hfd. cbn [from_option Datatypes.id] in Hfd.
    rewrite Hnorm in Hfd.
    rewrite (omap_registered tsec task_id ts Hreg_t) in Hfd.
    rewrite (omap_registered dsec dn_id ds Hreg_d) in Hfd.
    eexists _, _. split; [apply Hfd; try done|].
    + simpl. by rewrite <- list_fmap_compose.
    + simpl. by rewrite <- list_fmap_compose.
    + simpl. by rewrite Hts, Hds.
Qed.

(* ===================================================================== *)
(** * The derived data-node set                                          *)
(* ===================================================================== *)

Lemma mapM_hashable_atoms (atoms : list atom) :
  mapM hashable ((λ a, VAtom a) <$> atoms) = Ok atoms.
Proof.
  induction atoms as [|a atoms IH]; [done|].
  rewrite fmap_cons.
  change (mapM hashable (VAtom a :: ((λ a0, VAtom a0) <$> atoms))) with
    (y ← hashable (VAtom a);
     k ← mapM hashable ((λ a0, VAtom a0) <$> atoms);
     mret (y :: k)).
  by rewrite IH.
Qed.

Lemma update_from_task_configs (ts : list TaskConfig) (s : gset atom) :
  update_from_tasks ((λ t, VTask t) <$> ts) s
  = Ok (s ∪ list_to_set
              ((λ x, ADataNode x) <$> (ts ≫= λ t, inputs t ++ outputs t))).
Proof.
  revert s. induction ts as [|t ts IH]; intros s.
  - simpl. by rewrite (right_id_L ∅ (∪)).
  - simpl. rewrite IH. f_equal.
    rewrite !fmap_app, !list_to_set_app_L. by rewrite !(assoc_L (∪)).
Qed.


(* ===================================================================== *)
(** * Reset                                                              *)
(* ===================================================================== *)

(** [_clean] twice leaves the state [_clean] once leaves: empty lists, no
    frequency, no comparators, no properties, the id as it was. *)
Lemma clean_idempotent (self : ScenarioConfig) :
  _clean (_clean self) = _clean self ∧
  _clean self = mkScenarioConfig (id self) (VList []) (VList []) VNone
                  (VDict Plain ∅) ∅.
Proof. split; reflexivity. Qed.

(* ===================================================================== *)
(** * Comparators                                                        *)
(* ===================================================================== *)


Lemma add_comparator_defaultdict (self : ScenarioConfig) (key : string)
    (c : value) (m : gmap string value) (old : list value) :
  comparators self = VDict DefaultDictList m →
  default (VList []) (m !! key) = VList old →
  add_comparator self key c
  = Ok (mkScenarioConfig (id self) (_tasks self) (_additional_data_nodes self)
          (frequency self)
          (VDict DefaultDictList (<[key := VList (old ++ [c])]> m))
          (_properties self)).
Proof.
  intros Hc Hold. unfold add_comparator, comparators_getitem,
    defaultdict_getitem. rewrite Hc.
  destruct (m !! key) as [v|]; simpl in *; subst; simpl; [done|].
  injection Hold as <-. by rewrite insert_insert_eq.
Qed.



Lemma init_comparators_invalid (items : list (string * value))
    (comps : gmap string value) :
  map_Forall (λ _ v, is_list v) comps →
  Exists (λ kv, valid_identifier kv.1 = false) items →
  init_comparators items comps = Raise InvalidConfigurationId.
Proof.
  revert comps. induction items as [|[k v] items IH]; intros comps Hl Hex.
  - by apply Exists_nil in Hex.
  - simpl. unfold _validate_id.
    destruct (valid_identifier k) eqn:Hk; simpl; [|done].
    apply Exists_cons in Hex as [Hex|Hex]; [simpl in Hex; congruence|].
    unfold defaultdict_getitem.
    destruct (comps !! k) as [cur|] eqn:Hcur.
    + destruct (Hl k cur Hcur) as [xs ->].
      destruct v; simpl; apply IH; try done;
        (apply map_Forall_insert_2; [by eexists|done]).
    + destruct v; simpl; apply IH; try done;
        (apply map_Forall_insert_2; [by eexists|]);
        (apply map_Forall_insert_2; [by eexists|done]).
Qed.

Lemma init_invalid_comparator_key (i : string) (tasks adn freq : value)
    (kind : dict_kind) (m : gmap string value) (props : gmap string value)
    (k : string) :
  is_Some (m !! k) →
  valid_identifier k = false →
  __init__ i tasks adn freq (VDict kind m) props = Raise InvalidConfigurationId.
Proof.
  intros [v Hv] Hk. unfold __init__.
  assert (truthy (VDict kind m) = true) as ->.
  { simpl. apply negb_true_iff, Nat.eqb_neq, map_size_non_empty_iff.
    intros ->. by rewrite lookup_empty in Hv. }
  simpl. rewrite init_comparators_invalid; [done|apply map_Forall_empty|].
  apply Exists_exists. exists (k, v). split; [|done].
  by apply elem_of_map_to_list.
Qed.

(** C7 (as amended).  Every key of the comparator mapping is a validated
    identifier after construction: the constructor validates each key of
    its comparators argument and raises [InvalidConfigurationId] when one
    fails.  [delete_comparator], [_clean], and [add_comparator] with a key
    that is itself a valid identifier keep this; so does [_update] when the
    incoming document has no comparators key.  When the document has one,
    [_update] installs its value as it is, without validating its keys. *)
Theorem C7_comparator_keys_validated :
  (∀ i tasks adn freq comps props self,
     __init__ i tasks adn freq comps props = Ok self →
     comparator_keys_valid self) ∧
  (∀ i tasks adn freq kind m props k,
     is_Some (m !! k) → valid_identifier k = false →
     __init__ i tasks adn freq (VDict kind m) props
     = Raise InvalidConfigurationId) ∧
  (∀ self key self',
     comparator_keys_valid self →
     delete_comparator self key = Ok self' →
     comparator_keys_valid self') ∧
  (∀ self key c self',
     comparator_keys_valid self →
     valid_identifier key = true →
     add_comparator self key c = Ok self' →
     comparator_keys_valid self') ∧
  (∀ self, comparator_keys_valid (_clean self)) ∧
  (∀ self as_dict default_section,
     comparator_keys_valid self →
     as_dict !! _COMPARATOR_KEY = None →
     comparator_keys_valid (_update self as_dict default_section).1) ∧
  (∀ self as_dict default_section v,
     as_dict !! _COMPARATOR_KEY = Some v →
     is_None v = false →
     comparators (_update self as_dict default_section).1 = v).
Proof.
  split_and!.
  - intros i tasks adn freq comps props self Hinit.
    apply init_inv in Hinit as (m & -> & _ & Hm & _).
    by exists DefaultDictList, m.
  - intros i tasks adn freq kind m props k Hk Hinv.
    by apply (init_invalid_comparator_key _ _ _ _ _ _ _ k).
  - intros self key self' (kind & m & Hc & Hm) Hdel.
    unfold delete_comparator in Hdel. rewrite Hc in Hdel.
    injection Hdel as <-. exists kind, (delete key m). split; [done|].
    by apply map_Forall_delete.
  - intros self key c self' (kind & m & Hc & Hm) Hkey Hadd.
    unfold add_comparator, comparators_getitem in Hadd. rewrite Hc in Hadd.
    destruct kind.
    + destruct (m !! key) as [l|]; simpl in Hadd; [|done].
      destruct (list_append l c); simpl in Hadd; [|done].
      rewrite Hc in Hadd.
      injection Hadd as <-. eexists _, _. split; [done|].
      by apply map_Forall_insert_2.
    + destruct (defaultdict_getitem m key) as [m' l] eqn:Hg. simpl in Hadd.
      destruct (list_append l c); simpl in Hadd; [|done].
      injection Hadd as <-. eexists _, _. split; [done|].
      apply map_Forall_insert_2; [done|].
      unfold defaultdict_getitem in Hg.
      destruct (m !! key); simplify_eq; [done|].
      by apply map_Forall_insert_2.
  - intros self. exists Plain, ∅. split; [done|]. apply map_Forall_empty.
  - intros self as_dict default_section (kind & m & Hc & Hm) Hnone.
    destruct (update_attributes self as_dict default_section)
      as (_ & _ & _ & Hcomps).
    exists kind, m. split; [|done].
    rewrite Hcomps, Hnone. simpl. rewrite Hc. by destruct default_section.
  - intros self as_dict default_section v Hv Hnn.
    destruct (update_attributes self as_dict default_section)
      as (_ & _ & _ & Hcomps).
    rewrite Hcomps, Hv. simpl. rewrite Hnn. by destruct default_section.
Qed.

(* ===================================================================== *)
(** * The reference lists                                                *)
(* ===================================================================== *)

Lemma add_comparator_frame (self : ScenarioConfig) (key : string) (c : value)
    (self' : ScenarioConfig) :
  add_comparator self key c = Ok self' →
  _tasks self' = _tasks self ∧
  _additional_data_nodes self' = _additional_data_nodes self.
Proof.
  unfold add_comparator.
  destruct (comparators_getitem self key) as [self1 r].
  destruct r as [l|]; simpl; [|done].
  destruct (list_append l c); simpl; [|done].
  destruct (comparators self1); try done. by intros [= <-].
Qed.

Lemma delete_comparator_frame (self : ScenarioConfig) (key : string)
    (self' : ScenarioConfig) :
  delete_comparator self key = Ok self' →
  _tasks self' = _tasks self ∧
  _additional_data_nodes self' = _additional_data_nodes self.
Proof.
  unfold delete_comparator.
  destruct (comparators self) as [a|xs|kind m].
  - destruct a; try done.
    destruct (substring_of key s); [done|]. by intros [= <-].
  - destruct (existsb _ xs); [done|]. by intros [= <-].
  - by intros [= <-].
Qed.

Lemma comparators_getitem_frame (self : ScenarioConfig) (key : string) :
  _tasks (comparators_getitem self key).1 = _tasks self ∧
  _additional_data_nodes (comparators_getitem self key).1
  = _additional_data_nodes self.
Proof.
  unfold comparators_getitem.
  destruct (comparators self) as [a|xs|[|] m]; try done.
  by destruct (defaultdict_getitem m key).
Qed.

(** C8 (as amended).  After construction the tasks and the additional data
    nodes are lists: a falsy (or absent) argument gives the empty list, a
    single config a one-element list, a list itself.  [_clean], the
    comparator operations and reads keep them.  [_update] stores the
    incoming document's value as it is: the attribute stays a list when
    the document lacks the key or holds a list under it, and when it holds
    [None] and a default section whose attribute is a list is supplied;
    with [None] in the document and no default section the attribute
    becomes [None]. *)
Theorem C8_reference_lists_list_typed :
  (∀ i tasks adn freq comps props self,
     __init__ i tasks adn freq comps props = Ok self →
     (truthy tasks = false → _tasks self = VList []) ∧
     (∀ t, tasks = VTask t → _tasks self = VList [VTask t]) ∧
     (∀ xs, tasks = VList xs → _tasks self = VList xs) ∧
     (truthy adn = false → _additional_data_nodes self = VList []) ∧
     (∀ x, adn = VDataNode x →
           _additional_data_nodes self = VList [VDataNode x]) ∧
     (∀ xs, adn = VList xs → _additional_data_nodes self = VList xs)) ∧
  (∀ self as_dict default_section,
     is_list (_tasks self) →
     (as_dict !! _TASKS_KEY = None ∨
      (∃ xs, as_dict !! _TASKS_KEY = Some (VList xs)) ∨
      (as_dict !! _TASKS_KEY = Some VNone ∧
       ∃ d, default_section = Some d ∧ is_list (_tasks d))) →
     is_list (_tasks (_update self as_dict default_section).1)) ∧
  (∀ self as_dict default_section,
     is_list (_additional_data_nodes self) →
     (as_dict !! _ADDITIONAL_DATA_NODES_KEY = None ∨
      (∃ xs, as_dict !! _ADDITIONAL_DATA_NODES_KEY = Some (VList xs)) ∨
      (as_dict !! _ADDITIONAL_DATA_NODES_KEY = Some VNone ∧
       ∃ d, default_section = Some d ∧ is_list (_additional_data_nodes d))) →
     is_list (_additional_data_nodes
                (_update self as_dict default_section).1)) ∧
  (∀ self as_dict,
     as_dict !! _TASKS_KEY = Some VNone →
     _tasks (_update self as_dict None).1 = VNone) ∧
  (∀ self as_dict,
     as_dict !! _ADDITIONAL_DATA_NODES_KEY = Some VNone →
     _additional_data_nodes (_update self as_dict None).1 = VNone) ∧
  (∀ self, _tasks (_clean self) = VList [] ∧
           _additional_data_nodes (_clean self) = VList []) ∧
  (∀ self key c self',
     add_comparator self key c = Ok self' →
     _tasks self' = _tasks self ∧
     _additional_data_nodes self' = _additional_data_nodes self) ∧
  (∀ self key self',
     delete_comparator self key = Ok self' →
     _tasks self' = _tasks self ∧
     _additional_data_nodes self' = _additional_data_nodes self) ∧
  (∀ self key,
     _tasks (comparators_getitem self key).1 = _tasks self ∧
     _additional_data_nodes (comparators_getitem self key).1
     = _additional_data_nodes self).
Proof.
  split_and!.
  - intros i tasks adn freq comps props self Hinit.
    apply init_inv in Hinit as (m & -> & _). simpl.
    split_and!.
    + by intros ->.
    + by intros t ->.
    + intros xs ->. by destruct xs.
    + by intros ->.
    + by intros x ->.
    + intros xs ->. by destruct xs.
  - intros self as_dict default_section [xs Hxs] Hin.
    destruct (update_attributes self as_dict default_section)
      as (Ht & _). rewrite Ht.
    destruct Hin as [->|[[ys ->]| [-> (d & -> & Hd)]]]; simpl.
    + rewrite Hxs. destruct default_section; by eexists.
    + destruct default_section; by eexists.
    + done.
  - intros self as_dict default_section [xs Hxs] Hin.
    destruct (update_attributes self as_dict default_section)
      as (_ & Ha & _). rewrite Ha.
    destruct Hin as [->|[[ys ->]| [-> (d & -> & Hd)]]]; simpl.
    + rewrite Hxs. destruct default_section; by eexists.
    + destruct default_section; by eexists.
    + done.
  - intros self as_dict Hnone.
    destruct (update_attributes self as_dict None) as (Ht & _).
    rewrite Ht, Hnone. done.
  - intros self as_dict Hnone.
    destruct (update_attributes self as_dict None) as (_ & Ha & _).
    rewrite Ha, Hnone. done.
  - done.
  - apply add_comparator_frame.
  - apply delete_comparator_frame.
  - apply comparators_getitem_frame.
Qed.

(* ===================================================================== *)
(** * Further properties of [_from_dict]                                 *)
(* ===================================================================== *)

(** [_from_dict] step by step, with every lookup made in the caller's
    document as it was given. *)
Lemma from_dict_unfold (d : gmap string value) (i : string)
    (config : option _Config) :
  _from_dict d i config =
  let d1 := delete _ID_KEY d in
  let finish (d' : gmap string value) (ts : list TaskConfig)
             (ds : list DataNodeConfig) :=
    let d'' := delete _COMPARATOR_KEY (delete _FREQUENCY_KEY d') in
    (d'', new_ScenarioConfig i
            (VList ((λ t, VTask t) <$> ts))
            (VList ((λ x, VDataNode x) <$> ds))
            (default VNone (d !! _FREQUENCY_KEY))
            (default (VDict Plain ∅) (d !! _COMPARATOR_KEY)) d'') in
  if new_shape d then
    match resolve_entry config _sections_TASK
            (default VNone (d !! _TASKS_KEY)) with
    | Raise e => (delete _TASKS_KEY d1, Raise e)
    | Ok ts =>
        match resolve_entry config _sections_DATA_NODE
                (default VNone (d !! _ADDITIONAL_DATA_NODES_KEY)) with
        | Raise e =>
            (delete _ADDITIONAL_DATA_NODES_KEY (delete _TASKS_KEY d1), Raise e)
        | Ok ds =>
            finish (delete _ADDITIONAL_DATA_NODES_KEY (delete _TASKS_KEY d1))
              ts ds
        end
    end
  else
    match migrate_entry config (default VNone (d !! _PIPELINES_KEY)) with
    | Raise e => (delete _PIPELINES_KEY d1, Raise e)
    | Ok ts => finish (delete _PIPELINES_KEY d1) ts []
    end.
Proof.
  unfold _from_dict, resolve_entry, migrate_entry. unfold_on_dict.
  unfold new_shape. unfold_keys. rewrite !lookup_delete_ne by done.
  destruct (bool_decide (is_Some (d !! "tasks"))
            || bool_decide (is_Some (d !! "additional_data_nodes")));
    cbv beta iota zeta; rewrite !lookup_delete_ne by done.
  - repeat match goal with
           | |- context [match ?r with Ok _ => _ | Raise _ => _ end] =>
               destruct r; cbv beta iota
           end; try reflexivity.
    by rewrite !lookup_delete_ne by done.
  - repeat match goal with
           | |- context [match ?r with Ok _ => _ | Raise _ => _ end] =>
               destruct r; cbv beta iota
           end; try reflexivity.
    by rewrite !lookup_delete_ne by done.
Qed.

Lemma not_new_shape (d : gmap string value) :
  new_shape d = false →
  d !! _TASKS_KEY = None ∧ d !! _ADDITIONAL_DATA_NODES_KEY = None.
Proof.
  unfold new_shape. intros [Ht Ha]%orb_false_iff.
  apply bool_decide_eq_false in Ht, Ha.
  by rewrite <- !eq_None_not_Some in Ht, Ha.
Qed.

(** The document [_from_dict] leaves when it returns. *)
Lemma final_document_parameters (d : gmap string value) (p : string) :
  d !! "self" = None →
  p ∈ parameter_names →
  (if new_shape d
   then delete _COMPARATOR_KEY (delete _FREQUENCY_KEY
          (delete _ADDITIONAL_DATA_NODES_KEY (delete _TASKS_KEY
             (delete _ID_KEY d))))
   else delete _COMPARATOR_KEY (delete _FREQUENCY_KEY
          (delete _PIPELINES_KEY (delete _ID_KEY d)))) !! p = None.
Proof.
  intros Hself Hp. unfold parameter_names in Hp.
  rewrite !elem_of_cons, elem_of_nil in Hp.
  destruct (new_shape d) eqn:Hshape.
  - unfold_keys. rewrite !lookup_delete.
    destruct Hp as [->|[->|[->|[->|[->|[->|[]]]]]]]; by repeat case_decide.
  - destruct (not_new_shape d Hshape) as [Ht Ha].
    unfold_keys. rewrite !lookup_delete.
    destruct Hp as [->|[->|[->|[->|[->|[->|[]]]]]]]; by repeat case_decide.
Qed.

Lemma new_ScenarioConfig_lists (i : string) (ts ds : list value)
    (freq comps : value) (props : gmap string value) :
  (∀ p, p ∈ parameter_names → props !! p = None) →
  valid_identifier i = true →
  comparators_accepted comps →
  new_ScenarioConfig i (VList ts) (VList ds) freq comps props
  = Ok (mkScenarioConfig i (VList ts) (VList ds) freq
          (VDict DefaultDictList (normalized_comparators comps)) props).
Proof.
  intros Hp Hid Hacc. unfold new_ScenarioConfig.
  rewrite no_parameter_name by done. by apply init_lists.
Qed.

Lemma resolve_entry_ids {A : Type} (config : option _Config)
    (name : _Config → option (gmap string A)) (entry : option value)
    (ids : list atom) :
  id_list entry ids →
  (ids ≠ [] → has_section config name) →
  resolve_entry config name (default VNone entry)
  = Ok (omap (lookup_id (section_of config name)) ids).
Proof.
  intros Hids Hsec. unfold resolve_entry. destruct ids as [|a ids].
  - assert (truthy (default VNone entry) = false) as ->; [|done].
    destruct entry; simpl in *; by subst.
  - destruct Hsec as (c & section & -> & Hc); [done|].
    unfold section_of. rewrite Hc.
    exact (ids_resolved c name section entry (a :: ids) Hc Hids).
Qed.

Lemma migrate_entry_ids (config : option _Config) (entry : option value)
    (ids : list atom) :
  id_list entry ids →
  (ids ≠ [] → has_section config _sections_PIPELINE) →
  migrate_entry config (default VNone entry)
  = Ok (concat (pipeline_tasks <$>
                  omap (lookup_id (section_of config _sections_PIPELINE)) ids)).
Proof.
  intros Hids Hsec. unfold migrate_entry. destruct ids as [|a ids].
  - assert (truthy (default VNone entry) = false) as ->; [|done].
    destruct entry; simpl in *; by subst.
  - destruct Hsec as (c & section & -> & Hc); [done|].
    unfold section_of. rewrite Hc.
    exact (ids_migrated c section entry (a :: ids) Hc Hids).
Qed.

(** C5 (as amended).  For a document whose tasks and additional-data-nodes
    keys (or, in the legacy shape, whose pipelines key) list ids (strings,
    or any hashable values), resolved or not, and a registry that holds the
    section each non-empty list is resolved in (no section is asked of it
    for an empty or absent list, and none for a key the document's shape
    ignores): an id that does not resolve makes [_from_dict] raise nothing
    and is dropped.  [_from_dict] returns a config whose tasks,
    respectively additional data nodes, are exactly the entries whose ids
    resolved, in the order of the document. *)
Theorem C5_unresolved_ids_dropped (d : gmap string value) (i : string)
    (config : option _Config) (tids dids pids : list atom) :
  id_list (d !! _TASKS_KEY) tids →
  id_list (d !! _ADDITIONAL_DATA_NODES_KEY) dids →
  (new_shape d = false → id_list (d !! _PIPELINES_KEY) pids) →
  (tids ≠ [] → has_section config _sections_TASK) →
  (dids ≠ [] → has_section config _sections_DATA_NODE) →
  (new_shape d = false → pids ≠ [] →
   has_section config _sections_PIPELINE) →
  valid_identifier i = true →
  comparators_accepted (default (VDict Plain ∅) (d !! _COMPARATOR_KEY)) →
  d !! "self" = None →
  ∃ d' self,
    _from_dict d i config = (d', Ok self) ∧
    _tasks self
      = VList ((λ t, VTask t) <$>
                 (if new_shape d
                  then omap (lookup_id (section_of config _sections_TASK)) tids
                  else concat
                         (pipeline_tasks <$>
                            omap (lookup_id
                                    (section_of config _sections_PIPELINE))
                              pids))) ∧
    _additional_data_nodes self
      = VList ((λ x, VDataNode x) <$>
                 omap (lookup_id (section_of config _sections_DATA_NODE))
                   dids).
Proof.
  intros Ht Hd Hp Hts Hds Hps Hid Hacc Hself.
  rewrite from_dict_unfold. cbv zeta.
  pose proof (final_document_parameters d) as Hpar.
  destruct (new_shape d) eqn:Hshape.
  - rewrite (resolve_entry_ids config _sections_TASK _ tids Ht Hts).
    rewrite (resolve_entry_ids config _sections_DATA_NODE _ dids Hd Hds).
    rewrite new_ScenarioConfig_lists; try done; [|by intros p; apply Hpar].
    by eexists _, _.
  - rewrite (migrate_entry_ids config _ pids (Hp eq_refl) (Hps eq_refl)).
    rewrite new_ScenarioConfig_lists; try done; [|by intros p; apply Hpar].
    eexists _, _. split; [done|]. split; [done|].
    destruct (not_new_shape d Hshape) as [_ Hna]. rewrite Hna in Hd.
    simpl in Hd. by subst dids.
Qed.

(** X2.  Whatever the document, the id and the registry, and whether
    [_from_dict] returns or raises: the document it leaves has no id key,
    agrees with the document it was given on every key other than id,
    tasks, additional_data_nodes, pipelines, frequency and comparators, and
    holds no key or value the given document did not hold. *)
Theorem from_dict_frame (d : gmap string value) (i : string)
    (config : option _Config) :
  let d' := (_from_dict d i config).1 in
  d' !! _ID_KEY = None ∧
  (∀ k, k ∉ document_keys → d' !! k = d !! k) ∧
  (∀ k, d' !! k = d !! k ∨ d' !! k = None).
Proof.
  intros d'. subst d'. rewrite from_dict_unfold. cbv zeta.
  assert (∀ k, k ∉ document_keys →
               k ≠ _ID_KEY ∧ k ≠ _TASKS_KEY ∧ k ≠ _ADDITIONAL_DATA_NODES_KEY ∧
               k ≠ _PIPELINES_KEY ∧ k ≠ _FREQUENCY_KEY ∧ k ≠ _COMPARATOR_KEY)
    as Hout.
  { intros k Hk. unfold document_keys in Hk.
    rewrite !elem_of_cons, elem_of_nil in Hk. split_and!; intros ->; tauto. }
  destruct (new_shape d);
    repeat match goal with
           | |- context [match ?r with Ok _ => _ | Raise _ => _ end] =>
               destruct r
           end; cbn [fst]; unfold_keys.
  all: split_and!;
    [ rewrite !lookup_delete; by repeat case_decide
    | intros k (? & ? & ? & ? & ? & ?)%Hout;
      by rewrite !lookup_delete_ne by done
    | intros k; rewrite !lookup_delete; repeat case_decide; auto ].
Qed.

(** X3.  The registry is consulted only for ids to resolve: when the
    values under the tasks and additional-data-nodes keys (and, in the
    legacy shape, under the pipelines key) are absent or falsy,
    [_from_dict] returns a config with empty lists for any registry, a
    missing one ([None]) included. *)
Theorem from_dict_needs_no_registry (d : gmap string value) (i : string)
    (config : option _Config) :
  truthy (default VNone (d !! _TASKS_KEY)) = false →
  truthy (default VNone (d !! _ADDITIONAL_DATA_NODES_KEY)) = false →
  (new_shape d = false →
   truthy (default VNone (d !! _PIPELINES_KEY)) = false) →
  valid_identifier i = true →
  comparators_accepted (default (VDict Plain ∅) (d !! _COMPARATOR_KEY)) →
  d !! "self" = None →
  ∃ d' self,
    _from_dict d i config = (d', Ok self) ∧
    _tasks self = VList [] ∧
    _additional_data_nodes self = VList [] ∧
    frequency self = default VNone (d !! _FREQUENCY_KEY) ∧
    _properties self = d'.
Proof.
  intros Ht Ha Hp Hid Hacc Hself. rewrite from_dict_unfold. cbv zeta.
  pose proof (final_document_parameters d) as Hpar.
  unfold resolve_entry, migrate_entry. rewrite Ht, Ha.
  destruct (new_shape d).
  - rewrite new_ScenarioConfig_lists; try done; [|by intros p; apply Hpar].
    by eexists _, _.
  - rewrite (Hp eq_refl).
    rewrite new_ScenarioConfig_lists; try done; [|by intros p; apply Hpar].
    by eexists _, _.
Qed.

Lemma resolve_unhashable {A : Type} (section : gmap string A)
    (ids : list value) (found : list A) :
  Exists (λ v, hashable v = Raise TypeError) ids →
  resolve section ids found = Raise TypeError.
Proof.
  intros Hex. revert found.
  induction ids as [|v ids IH]; intros found; [by apply Exists_nil in Hex|].
  simpl. unfold section_get. destruct v as [a|xs|kind m]; simpl; try done.
  apply Exists_cons in Hex as [Hex|Hex]; [done|].
  destruct a; simpl; by apply IH.
Qed.

(** X4.  When the value under the tasks key is truthy, [_from_dict] needs
    the task section: with no registry it raises [AttributeError], with a
    registry that has no task section [KeyError]; a value that cannot be
    iterated (a number, a config, ...) and a list holding an unhashable id
    (a list, a dict) give [TypeError].  In each case only the id and the
    tasks key have been popped off the document. *)
Theorem from_dict_tasks_errors (d : gmap string value) (i : string)
    (v : value) :
  d !! _TASKS_KEY = Some v →
  truthy v = true →
  let left_behind := delete _TASKS_KEY (delete _ID_KEY d) in
  _from_dict d i None = (left_behind, Raise AttributeError) ∧
  (∀ c, _sections_TASK c = None →
        _from_dict d i (Some c) = (left_behind, Raise KeyError)) ∧
  (∀ c sec a, _sections_TASK c = Some sec →
              v = VAtom a → (∀ s, a ≠ AStr s) →
              _from_dict d i (Some c) = (left_behind, Raise TypeError)) ∧
  (∀ c sec xs, _sections_TASK c = Some sec →
               v = VList xs →
               Exists (λ x, hashable x = Raise TypeError) xs →
               _from_dict d i (Some c) = (left_behind, Raise TypeError)).
Proof.
  intros Hv Ht left_behind. subst left_behind.
  assert (new_shape d = true) as Hshape.
  { unfold new_shape. rewrite Hv. by rewrite bool_decide_eq_true_2. }
  split_and!.
  - rewrite from_dict_unfold, Hshape. cbv zeta. unfold resolve_entry.
    rewrite Hv. simpl. by rewrite Ht.
  - intros c Hc. rewrite from_dict_unfold, Hshape. cbv zeta.
    unfold resolve_entry. rewrite Hv. simpl. by rewrite Ht, Hc.
  - intros c sec a Hc -> Ha. rewrite from_dict_unfold, Hshape. cbv zeta.
    unfold resolve_entry. rewrite Hv.
    cbn [from_option Datatypes.id]. rewrite Ht. simpl. rewrite Hc. simpl.
    destruct a as [| | s | | | |]; try done. by destruct (Ha s).
  - intros c sec xs Hc -> Hex. rewrite from_dict_unfold, Hshape. cbv zeta.
    unfold resolve_entry. rewrite Hv.
    cbn [from_option Datatypes.id]. rewrite Ht. simpl. rewrite Hc. simpl.
    by rewrite resolve_unhashable.
Qed.

Lemma resolve_sound {A : Type} (section : gmap string A) (ids : list value)
    (found r : list A) (x : A) :
  resolve section ids found = Ok r →
  x ∈ r →
  x ∈ found ∨ ∃ k, section !! k = Some x.
Proof.
  revert found. induction ids as [|v ids IH]; intros found; simpl.
  - intros [= ->]. by left.
  - destruct (section_get section v) as [o|] eqn:Hget; simpl; [|done].
    intros Hr Hx. destruct (IH _ Hr Hx) as [Hin|Hk]; [|by right].
    destruct o as [c|]; [|by left].
    apply elem_of_app in Hin as [Hin|Hin]; [by left|].
    apply list_elem_of_singleton in Hin as ->. right.
    unfold section_get in Hget.
    destruct v as [a|xs|kind m]; simpl in Hget; try done.
    destruct a; simplify_eq. by eexists.
Qed.

Lemma migrate_sound (section : gmap string PipelineConfig)
    (ids : list value) (found r : list TaskConfig) (t : TaskConfig) :
  migrate section ids found = Ok r →
  t ∈ r →
  t ∈ found ∨ ∃ k p, section !! k = Some p ∧ t ∈ pipeline_tasks p.
Proof.
  revert found. induction ids as [|v ids IH]; intros found; simpl.
  - intros [= ->]. by left.
  - destruct (section_get section v) as [o|] eqn:Hget; simpl; [|done].
    intros Hr Hx. destruct (IH _ Hr Hx) as [Hin|Hk]; [|by right].
    destruct o as [p|]; [|by left].
    apply elem_of_app in Hin as [Hin|Hin]; [by left|]. right.
    unfold section_get in Hget.
    destruct v as [a|xs|kind m]; simpl in Hget; try done.
    destruct a; simplify_eq. by eexists _, _.
Qed.

Lemma resolve_entry_sound {A : Type} (config : option _Config)
    (proj : _Config → option (gmap string A)) (entry : value)
    (r : list A) (x : A) :
  resolve_entry config proj entry = Ok r →
  x ∈ r →
  ∃ c sec k, config = Some c ∧ proj c = Some sec ∧ sec !! k = Some x.
Proof.
  unfold resolve_entry. destruct (truthy entry).
  - destruct config as [c|]; simpl; [|done].
    destruct (proj c) as [sec|] eqn:Hsec; simpl; [|done].
    destruct (iter entry) as [l|]; simpl; [|done].
    intros Hr Hx. destruct (resolve_sound _ _ _ _ _ Hr Hx) as [Hin|[k Hk]].
    + by apply elem_of_nil in Hin.
    + by exists c, sec, k.
  - intros [= <-] Hx. by apply elem_of_nil in Hx.
Qed.

Lemma migrate_entry_sound (config : option _Config) (entry : value)
    (r : list TaskConfig) (t : TaskConfig) :
  migrate_entry config entry = Ok r →
  t ∈ r →
  known_task config t.
Proof.
  unfold migrate_entry. destruct (truthy entry).
  - destruct config as [c|]; simpl; [|done].
    destruct (_sections_PIPELINE c) as [sec|] eqn:Hsec; simpl; [|done].
    destruct (iter entry) as [l|]; simpl; [|done].
    intros Hr Hx.
    destruct (migrate_sound _ _ _ _ _ Hr Hx) as [Hin|(k & p & Hk & Hp)].
    + by apply elem_of_nil in Hin.
    + exists c. split; [done|]. right. by exists sec, k, p.
  - intros [= <-] Hx. by apply elem_of_nil in Hx.
Qed.

Lemma new_ScenarioConfig_constructed (i : string) (ts ds : list value)
    (freq comps : value) (props : gmap string value) (self : ScenarioConfig) :
  new_ScenarioConfig i (VList ts) (VList ds) freq comps props = Ok self →
  constructed self ∧ id self = i ∧ _tasks self = VList ts ∧
  _additional_data_nodes self = VList ds ∧ frequency self = freq ∧
  _properties self = props.
Proof.
  unfold new_ScenarioConfig. destruct (existsb _ parameter_names); [done|].
  intros (m & -> & Hid & Hk & Hl)%init_inv.
  assert (constructed
            (mkScenarioConfig i (VList ts) (VList ds) freq
               (VDict DefaultDictList m) props)) as Hc; [|by destruct ts, ds].
  split_and!; try done; try by eexists.
  exists m. split; [done|]. intros k v Hkv. split; [by apply (Hk k v)|].
  by apply (Hl k v).
Qed.

(** X5.  Whatever the document holds, a config [_from_dict] returns is in
    the constructor's form (a valid id, two lists, a [defaultdict] of
    lists under valid keys), its id is the one passed in, and it refers
    to nothing the registry does not know: each of its tasks is an entry
    of the task section or a task of a registered pipeline, each of its
    additional data nodes an entry of the data-node section. *)
Theorem from_dict_sound (d : gmap string value) (i : string)
    (config : option _Config) (d' : gmap string value)
    (self : ScenarioConfig) :
  _from_dict d i config = (d', Ok self) →
  constructed self ∧
  id self = i ∧
  frequency self = default VNone (d !! _FREQUENCY_KEY) ∧
  ∃ ts ds,
    _tasks self = VList ((λ t, VTask t) <$> ts) ∧
    _additional_data_nodes self = VList ((λ x, VDataNode x) <$> ds) ∧
    Forall (known_task config) ts ∧
    Forall (known_data_node config) ds.
Proof.
  rewrite from_dict_unfold. cbv zeta. destruct (new_shape d).
  - destruct (resolve_entry config _sections_TASK _) as [ts|] eqn:Hts; [|done].
    destruct (resolve_entry config _sections_DATA_NODE _) as [ds|] eqn:Hds;
      [|done].
    intros [= _ Hnew].
    apply new_ScenarioConfig_constructed in Hnew
      as (Hc & Hi & Ht & Ha & Hf & _).
    split_and!; try done. exists ts, ds. split_and!; try done.
    + apply Forall_forall. intros t Hin.
      destruct (resolve_entry_sound _ _ _ _ _ Hts Hin) as (c & sec & k & ?).
      exists c. split; [tauto|]. left. exists sec, k. tauto.
    + apply Forall_forall. intros x Hin.
      by apply (resolve_entry_sound _ _ _ _ _ Hds).
  - destruct (migrate_entry config _) as [ts|] eqn:Hts; [|done].
    intros [= _ Hnew].
    apply new_ScenarioConfig_constructed in Hnew
      as (Hc & Hi & Ht & Ha & Hf & _).
    split_and!; try done. exists ts, []. split_and!; try done.
    apply Forall_forall. intros t Hin.
    by apply (migrate_entry_sound _ _ _ _ Hts).
Qed.

(** X6.  A config [_from_dict] returns serialises back: its [_to_dict]
    shows every key of the document other than id, tasks,
    additional_data_nodes, pipelines, frequency and comparators with the
    document's value, shows the four attributes under the four reserved
    keys (no property shadows them), and has no id key; a pipelines key
    that came beside a tasks or additional_data_nodes key is shown as it
    came. *)
Theorem from_dict_to_dict (d : gmap string value) (i : string)
    (config : option _Config) (d' : gmap string value)
    (self : ScenarioConfig) :
  _from_dict d i config = (d', Ok self) →
  (∀ k, k ∉ document_keys → _to_dict self !! k = d !! k) ∧
  _to_dict self !! _TASKS_KEY = Some (_tasks self) ∧
  _to_dict self !! _ADDITIONAL_DATA_NODES_KEY
    = Some (_additional_data_nodes self) ∧
  _to_dict self !! _FREQUENCY_KEY = Some (frequency self) ∧
  _to_dict self !! _COMPARATOR_KEY = Some (comparators self) ∧
  _to_dict self !! _ID_KEY = None ∧
  _to_dict self !! _PIPELINES_KEY
    = (if new_shape d then d !! _PIPELINES_KEY else None).
Proof.
  intros [Hd' Hprops]%from_dict_inv.
  assert (∀ k, k ∈ reserved_keys ∨ k = _ID_KEY → d' !! k = None) as Hres.
  { intros k Hk. unfold reserved_keys in Hk.
    rewrite !elem_of_cons, elem_of_nil in Hk. subst d'.
    destruct (new_shape d) eqn:Hshape.
    - unfold_keys. rewrite !lookup_delete.
      destruct Hk as [[->|[->|[->|[->|[]]]]]| ->]; by repeat case_decide.
    - destruct (not_new_shape d Hshape) as [Ht Ha].
      unfold_keys. rewrite !lookup_delete.
      destruct Hk as [[->|[->|[->|[->|[]]]]]| ->]; by repeat case_decide. }
  assert (∀ k, k ∈ reserved_keys → _properties self !! k = None) as Hnone.
  { intros k Hk. rewrite Hprops. apply Hres. by left. }
  split_and!.
  - intros k Hk. unfold document_keys in Hk.
    rewrite !elem_of_cons, elem_of_nil in Hk.
    assert (_ID_KEY ≠ k ∧ _TASKS_KEY ≠ k ∧ _ADDITIONAL_DATA_NODES_KEY ≠ k ∧
            _PIPELINES_KEY ≠ k ∧ _FREQUENCY_KEY ≠ k ∧ _COMPARATOR_KEY ≠ k)
      as (? & ? & ? & ? & ? & ?) by (split_and!; intros <-; tauto).
    unfold _to_dict. rewrite lookup_union, Hprops.
    rewrite !lookup_insert_ne, lookup_empty by done.
    assert (d' !! k = d !! k) as ->.
    { subst d'. destruct (new_shape d); by rewrite !lookup_delete_ne by done. }
    by destruct (d !! k).
  - rewrite to_dict_lookup_reserved; [done|].
    apply Hnone. unfold reserved_keys. rewrite !elem_of_cons. tauto.
  - rewrite to_dict_lookup_reserved; [done|].
    apply Hnone. unfold reserved_keys. rewrite !elem_of_cons. tauto.
  - rewrite to_dict_lookup_reserved; [done|].
    apply Hnone. unfold reserved_keys. rewrite !elem_of_cons. tauto.
  - rewrite to_dict_lookup_reserved; [done|].
    apply Hnone. unfold reserved_keys. rewrite !elem_of_cons. tauto.
  - rewrite to_dict_lookup_reserved; [done|].
    rewrite Hprops. apply Hres. by right.
  - unfold _to_dict. rewrite lookup_union, Hprops.
    unfold_keys. rewrite !lookup_insert_ne, lookup_empty by done.
    subst d'. destruct (new_shape d).
    + rewrite !lookup_delete_ne by done. by destruct (d !! "pipelines").
    + rewrite !lookup_delete_ne by done. by rewrite lookup_delete_eq.
Qed.

(* ===================================================================== *)
(** * The constructor and copies                                         *)
(* ===================================================================== *)

Lemma config_eq (a b : ScenarioConfig) :
  id a = id b →
  _tasks a = _tasks b →
  _additional_data_nodes a = _additional_data_nodes b →
  frequency a = frequency b →
  comparators a = comparators b →
  _properties a = _properties b →
  a = b.
Proof. destruct a, b. simpl. by intros -> -> -> -> -> ->. Qed.

Lemma parameter_property_collides (props : gmap string value) (p : string) :
  p ∈ parameter_names →
  is_Some (props !! p) →
  existsb (λ q, bool_decide (is_Some (props !! q))) parameter_names = true.
Proof.
  intros Hp Hsome. apply existsb_exists. exists p.
  split; [by apply list_elem_of_In|]. by apply bool_decide_eq_true.
Qed.

(** X7.  What the constructor does with a comparators dict and an id: when
    every key of the dict and the id are valid identifiers it returns a
    config whose comparators map each key to its value in list form (a
    list as it is, a single comparator as a one-element list), keeps the
    id, the frequency and the properties as given; when the id or a key of
    the dict is not valid it raises [InvalidConfigurationId].  A truthy
    comparators argument that is no dict raises: [AttributeError] for a
    comparator alone, a number, a string, a frequency and a non-empty
    list, which have no [items]; [TypeError] for a task or data-node
    config, which answers [items] with [None]. *)
Theorem init_outcomes (i : string) (tasks adn freq : value)
    (props : gmap string value) :
  (∀ kind m,
     map_Forall (λ k _, valid_identifier k = true) m →
     valid_identifier i = true →
     ∃ self,
       __init__ i tasks adn freq (VDict kind m) props = Ok self ∧
       comparators self = VDict DefaultDictList (comparator_list <$> m) ∧
       id self = i ∧ frequency self = freq ∧ _properties self = props) ∧
  (∀ kind m,
     map_Forall (λ k _, valid_identifier k = true) m →
     valid_identifier i = false →
     __init__ i tasks adn freq (VDict kind m) props
     = Raise InvalidConfigurationId) ∧
  (∀ kind m k,
     is_Some (m !! k) → valid_identifier k = false →
     __init__ i tasks adn freq (VDict kind m) props
     = Raise InvalidConfigurationId) ∧
  (∀ a, truthy (VAtom a) = true →
        (∀ t, a ≠ ATask t) → (∀ x, a ≠ ADataNode x) →
        __init__ i tasks adn freq (VAtom a) props = Raise AttributeError) ∧
  (∀ t, __init__ i tasks adn freq (VTask t) props = Raise TypeError) ∧
  (∀ x, __init__ i tasks adn freq (VDataNode x) props = Raise TypeError) ∧
  (∀ x xs, __init__ i tasks adn freq (VList (x :: xs)) props
           = Raise AttributeError).
Proof.
  split_and!.
  - intros kind m Hm Hid.
    assert (comparators_accepted (VDict kind m)) as Hacc
      by (right; by exists kind, m).
    unfold __init__. rewrite (init_comparators_accepted _ Hacc). simpl.
    unfold _validate_id. rewrite Hid. simpl. by eexists.
  - intros kind m Hm Hid.
    assert (comparators_accepted (VDict kind m)) as Hacc
      by (right; by exists kind, m).
    unfold __init__. rewrite (init_comparators_accepted _ Hacc). simpl.
    unfold _validate_id. by rewrite Hid.
  - intros kind m k Hk Hinv.
    by apply (init_invalid_comparator_key _ _ _ _ _ _ _ k).
  - intros a Ha Htask Hnode. unfold __init__. rewrite Ha.
    destruct a as [|n|s|f|c|t|x]; try done.
    + by destruct (Htask t).
    + by destruct (Hnode x).
  - intros t. reflexivity.
  - intros x. reflexivity.
  - intros x xs. reflexivity.
Qed.

(** X8.  [__copy__] of a config in the constructor's form (a valid id, two
    lists, a [defaultdict] of lists under valid keys) none of whose
    properties is named like a constructor parameter returns a config
    equal to it.  After [_clean], whose comparators are a plain empty
    dict, the copy is the empty config with the constructor's
    [defaultdict] again. *)
Theorem copy_equal (self : ScenarioConfig) :
  (constructed self →
   (∀ p, p ∈ parameter_names → _properties self !! p = None) →
   __copy__ self = Ok self) ∧
  (valid_identifier (id self) = true →
   __copy__ (_clean self)
   = Ok (mkScenarioConfig (id self) (VList []) (VList []) VNone
           (VDict DefaultDictList ∅) ∅)).
Proof.
  split.
  - intros (Hid & [ts Hts] & [ds Hds] & m & Hc & Hm) Hp. unfold __copy__.
    rewrite Hts, Hds, Hc. cbn [copy].
    rewrite new_ScenarioConfig_lists; try done.
    + f_equal. rewrite normalized_lists; [|intros k v Hk; by apply (Hm k v)].
      apply config_eq; by simpl.
    + right. exists DefaultDictList, m. split; [done|].
      intros k v Hk. by apply (Hm k v).
  - intros Hid. unfold __copy__, _clean. simpl.
    rewrite new_ScenarioConfig_lists; try done. by left.
Qed.

(** X9.  [__copy__] passes the properties on as keyword arguments: a
    property named like a parameter of the constructor (self, id, tasks,
    additional_data_nodes, frequency, comparators) makes it raise
    [TypeError].  [_update] does not pop the id key, so after [_update]
    with a document that has an id (or a self) key the config can no
    longer be copied. *)
Theorem copy_parameter_property :
  (∀ self p,
     p ∈ parameter_names → is_Some (_properties self !! p) →
     __copy__ self = Raise TypeError) ∧
  (∀ self as_dict default_section,
     is_Some (as_dict !! _ID_KEY) ∨ is_Some (as_dict !! "self") →
     __copy__ (_update self as_dict default_section).1 = Raise TypeError).
Proof.
  assert (∀ self p,
            p ∈ parameter_names → is_Some (_properties self !! p) →
            __copy__ self = Raise TypeError) as Hgen.
  { intros self p Hp Hsome. unfold __copy__, new_ScenarioConfig.
    by rewrite (parameter_property_collides _ p Hp Hsome). }
  split; [exact Hgen|].
  intros self as_dict default_section Hkey.
  assert (∀ k v, k ∉ reserved_keys → as_dict !! k = Some v →
                 _properties (_update self as_dict default_section).1 !! k
                 = Some v) as Hprop.
  { intros k v Hk Hv. unfold reserved_keys in Hk.
    rewrite !elem_of_cons, elem_of_nil in Hk.
    assert (_TASKS_KEY ≠ k ∧ _ADDITIONAL_DATA_NODES_KEY ≠ k ∧
            _FREQUENCY_KEY ≠ k ∧ _COMPARATOR_KEY ≠ k)
      as (? & ? & ? & ?) by (split_and!; intros <-; tauto).
    unfold _update, dict_pop. simpl.
    destruct default_section; rewrite !lookup_union;
      rewrite !lookup_delete_ne by done; rewrite Hv; simpl;
      by repeat match goal with |- context [?m !! k] => destruct (m !! k) end. }
  destruct Hkey as [[v Hv]|[v Hv]].
  - apply (Hgen _ "id"); [unfold parameter_names; rewrite !elem_of_cons; tauto|].
    exists v. apply Hprop; [|done]. unfold reserved_keys.
    rewrite !elem_of_cons, elem_of_nil. unfold_keys.
    intros [?|[?|[?|[?|[]]]]]; discriminate.
  - apply (Hgen _ "self");
      [unfold parameter_names; rewrite !elem_of_cons; tauto|].
    exists v. apply Hprop; [|done]. unfold reserved_keys.
    rewrite !elem_of_cons, elem_of_nil. unfold_keys.
    intros [?|[?|[?|[?|[]]]]]; discriminate.
Qed.

(* ===================================================================== *)
(** * Further properties of [_update]                                    *)
(* ===================================================================== *)

Lemma update_results (self : ScenarioConfig) (as_dict : gmap string value)
    (default_section : option ScenarioConfig) :
  let rest := delete _COMPARATOR_KEY (delete _FREQUENCY_KEY
                (delete _ADDITIONAL_DATA_NODES_KEY
                   (delete _TASKS_KEY as_dict))) in
  (_update self as_dict default_section).2 = rest ∧
  id (_update self as_dict default_section).1 = id self ∧
  _properties (_update self as_dict default_section).1
  = (rest ∪ _properties self) ∪
    match default_section with Some d => properties d | None => ∅ end.
Proof.
  intros rest. subst rest. unfold _update, dict_pop. simpl.
  split_and!; try done. destruct default_section; [done|].
  by rewrite (right_id_L ∅ (∪)).
Qed.

Lemma rest_lookup (as_dict : gmap string value) (k : string) :
  delete _COMPARATOR_KEY (delete _FREQUENCY_KEY
    (delete _ADDITIONAL_DATA_NODES_KEY (delete _TASKS_KEY as_dict))) !! k
  = if bool_decide (k ∈ reserved_keys) then None else as_dict !! k.
Proof.
  unfold reserved_keys. rewrite !lookup_delete. case_bool_decide as Hk.
  - repeat case_decide; try done. exfalso.
    rewrite !elem_of_cons, elem_of_nil in Hk.
    destruct Hk as [->|[->|[->|[->|[]]]]]; done.
  - repeat case_decide; try done; exfalso; apply Hk; subst k;
      rewrite !elem_of_cons; tauto.
Qed.

Lemma rest_rest (as_dict : gmap string value) :
  let rest := delete _COMPARATOR_KEY (delete _FREQUENCY_KEY
                (delete _ADDITIONAL_DATA_NODES_KEY
                   (delete _TASKS_KEY as_dict))) in
  delete _COMPARATOR_KEY (delete _FREQUENCY_KEY
    (delete _ADDITIONAL_DATA_NODES_KEY (delete _TASKS_KEY rest))) = rest.
Proof.
  intros rest. apply map_eq. intros k. rewrite rest_lookup.
  case_bool_decide; [|done]. subst rest. rewrite rest_lookup.
  by rewrite bool_decide_eq_true_2.
Qed.

(** X10.  [_update] with the [_to_dict] of a config [S] (none of whose
    properties is named like a reserved key) gives the receiver the four
    attributes of [S] (or, for one that is [None], the default section's
    when one is supplied), and lays the properties of [S] over its own;
    the document is left holding the properties of [S] only.  With its own
    [_to_dict] and no default section, a config is left as it was. *)
Theorem update_with_to_dict (receiver S : ScenarioConfig)
    (default_section : option ScenarioConfig) :
  (∀ k, k ∈ reserved_keys → _properties S !! k = None) →
  let or_default (v : value) (attr : ScenarioConfig → value) : value :=
    match default_section with
    | Some d => if is_None v then attr d else v
    | None => v
    end in
  let updated := (_update receiver (_to_dict S) default_section).1 in
  _tasks updated = or_default (_tasks S) _tasks ∧
  _additional_data_nodes updated
    = or_default (_additional_data_nodes S) _additional_data_nodes ∧
  frequency updated = or_default (frequency S) frequency ∧
  comparators updated = or_default (comparators S) comparators ∧
  _properties updated
    = (_properties S ∪ _properties receiver) ∪
      match default_section with Some d => properties d | None => ∅ end ∧
  (_update receiver (_to_dict S) default_section).2 = _properties S ∧
  (_update S (_to_dict S) None).1 = S.
Proof.
  intros Hres or_default updated.
  assert (∀ k, k ∈ reserved_keys →
               _to_dict S !! k =
                 if decide (k = _COMPARATOR_KEY) then Some (comparators S)
                 else if decide (k = _TASKS_KEY) then Some (_tasks S)
                 else if decide (k = _ADDITIONAL_DATA_NODES_KEY)
                      then Some (_additional_data_nodes S)
                 else if decide (k = _FREQUENCY_KEY) then Some (frequency S)
                 else None) as Hlook.
  { intros k Hk. by apply to_dict_lookup_reserved, Hres. }
  assert (_to_dict S !! _TASKS_KEY = Some (_tasks S)) as Hdt.
  { rewrite Hlook; [done|]. unfold reserved_keys. rewrite !elem_of_cons. tauto. }
  assert (_to_dict S !! _ADDITIONAL_DATA_NODES_KEY
          = Some (_additional_data_nodes S)) as Hda.
  { rewrite Hlook; [done|]. unfold reserved_keys. rewrite !elem_of_cons. tauto. }
  assert (_to_dict S !! _FREQUENCY_KEY = Some (frequency S)) as Hdf.
  { rewrite Hlook; [done|]. unfold reserved_keys. rewrite !elem_of_cons. tauto. }
  assert (_to_dict S !! _COMPARATOR_KEY = Some (comparators S)) as Hdc.
  { rewrite Hlook; [done|]. unfold reserved_keys. rewrite !elem_of_cons. tauto. }
  assert (delete _COMPARATOR_KEY (delete _FREQUENCY_KEY
            (delete _ADDITIONAL_DATA_NODES_KEY
               (delete _TASKS_KEY (_to_dict S)))) = _properties S) as Hrest.
  { apply map_eq. intros k. rewrite rest_lookup. case_bool_decide as Hk.
    - symmetry. by apply Hres.
    - unfold _to_dict. rewrite lookup_union.
      unfold reserved_keys in Hk. rewrite !elem_of_cons, elem_of_nil in Hk.
      rewrite !lookup_insert_ne, lookup_empty by (intros <-; tauto).
      by destruct (_properties S !! k). }
  assert (∀ T ds,
            _tasks (_update T (_to_dict S) ds).1
              = match ds with
                | Some d => if is_None (_tasks S) then _tasks d else _tasks S
                | None => _tasks S
                end ∧
            _additional_data_nodes (_update T (_to_dict S) ds).1
              = match ds with
                | Some d => if is_None (_additional_data_nodes S)
                            then _additional_data_nodes d
                            else _additional_data_nodes S
                | None => _additional_data_nodes S
                end ∧
            frequency (_update T (_to_dict S) ds).1
              = match ds with
                | Some d => if is_None (frequency S) then frequency d
                            else frequency S
                | None => frequency S
                end ∧
            comparators (_update T (_to_dict S) ds).1
              = match ds with
                | Some d => if is_None (comparators S) then comparators d
                            else comparators S
                | None => comparators S
                end) as Hattr.
  { intros T ds. destruct (update_attributes T (_to_dict S) ds)
      as (Ht & Ha & Hf & Hc).
    rewrite Ht, Ha, Hf, Hc, Hdt, Hda, Hdf, Hdc. done. }
  destruct (Hattr receiver default_section) as (Ht & Ha & Hf & Hc).
  destruct (update_results receiver (_to_dict S) default_section)
    as (Hdoc & _ & Hprops).
  subst updated or_default. rewrite Hrest in Hdoc, Hprops.
  split_and!; try done.
  destruct (Hattr S None) as (Ht' & Ha' & Hf' & Hc').
  destruct (update_results S (_to_dict S) None) as (_ & Hid' & Hprops').
  rewrite Hrest in Hprops'.
  apply config_eq; try done.
  rewrite Hprops', (right_id_L ∅ (∪)). apply map_eq. intros k.
  rewrite lookup_union. by destruct (_properties S !! k).
Qed.

Lemma or_default_idem (v dv : value) :
  (if is_None (if is_None v then dv else v) then dv
   else if is_None v then dv else v)
  = if is_None v then dv else v.
Proof.
  destruct (is_None v) eqn:Hv; [by destruct (is_None dv)|by rewrite Hv].
Qed.

(** X11.  Applying the same [_update] twice gives what applying it once
    gives, both with a fresh copy of the document and with the document as
    the first call left it (the four reserved keys popped). *)
Theorem update_idempotent (self : ScenarioConfig)
    (as_dict : gmap string value) (default_section : option ScenarioConfig) :
  let once := _update self as_dict default_section in
  (_update once.1 as_dict default_section).1 = once.1 ∧
  (_update once.1 once.2 default_section).1 = once.1.
Proof.
  intros once. subst once.
  destruct (update_attributes self as_dict default_section)
    as (Ht & Ha & Hf & Hc).
  destruct (update_results self as_dict default_section)
    as (Hdoc & Hid & Hprops).
  set (once := (_update self as_dict default_section).1) in *.
  set (rest := delete _COMPARATOR_KEY (delete _FREQUENCY_KEY
                 (delete _ADDITIONAL_DATA_NODES_KEY
                    (delete _TASKS_KEY as_dict)))) in *.
  set (bag := match default_section with
              | Some d => properties d
              | None => ∅
              end) in *.
  assert ((rest ∪ (rest ∪ _properties self ∪ bag)) ∪ bag
          = rest ∪ _properties self ∪ bag) as Hbag.
  { apply map_eq. intros k. rewrite !lookup_union.
    by destruct (rest !! k), (_properties self !! k), (bag !! k). }
  split.
  - destruct (update_attributes once as_dict default_section)
      as (Ht2 & Ha2 & Hf2 & Hc2).
    destruct (update_results once as_dict default_section)
      as (_ & Hid2 & Hprops2).
    apply config_eq; try done.
    + rewrite Ht2, Ht. destruct (as_dict !! _TASKS_KEY), default_section;
        simpl; try done; by rewrite or_default_idem.
    + rewrite Ha2, Ha.
      destruct (as_dict !! _ADDITIONAL_DATA_NODES_KEY), default_section;
        simpl; try done; by rewrite or_default_idem.
    + rewrite Hf2, Hf. destruct (as_dict !! _FREQUENCY_KEY), default_section;
        simpl; try done; by rewrite or_default_idem.
    + rewrite Hc2, Hc. destruct (as_dict !! _COMPARATOR_KEY), default_section;
        simpl; try done; by rewrite or_default_idem.
    + fold rest bag in Hprops2. by rewrite Hprops2, Hprops.
  - rewrite Hdoc.
    destruct (update_attributes once rest default_section)
      as (Ht2 & Ha2 & Hf2 & Hc2).
    destruct (update_results once rest default_section)
      as (_ & Hid2 & Hprops2).
    pose proof (rest_rest as_dict) as Hrr. cbv zeta in Hrr. fold rest in Hrr.
    rewrite Hrr in Hprops2. fold bag in Hprops2.
    assert (∀ k, k ∈ reserved_keys → rest !! k = None) as Hnone.
    { intros k Hk. subst rest. rewrite rest_lookup.
      by rewrite bool_decide_eq_true_2. }
    apply config_eq; try done.
    + rewrite Ht2, Hnone, Ht
        by (unfold reserved_keys; rewrite !elem_of_cons; tauto).
      destruct (as_dict !! _TASKS_KEY), default_section;
        simpl; try done; by rewrite or_default_idem.
    + rewrite Ha2, Hnone, Ha
        by (unfold reserved_keys; rewrite !elem_of_cons; tauto).
      destruct (as_dict !! _ADDITIONAL_DATA_NODES_KEY), default_section;
        simpl; try done; by rewrite or_default_idem.
    + rewrite Hf2, Hnone, Hf
        by (unfold reserved_keys; rewrite !elem_of_cons; tauto).
      destruct (as_dict !! _FREQUENCY_KEY), default_section;
        simpl; try done; by rewrite or_default_idem.
    + rewrite Hc2, Hnone, Hc
        by (unfold reserved_keys; rewrite !elem_of_cons; tauto).
      destruct (as_dict !! _COMPARATOR_KEY), default_section;
        simpl; try done; by rewrite or_default_idem.
    + by rewrite Hprops2, Hprops.
Qed.

(** X12.  [_update] pops exactly the four reserved keys off the document
    and never changes the id.  Unlike [_from_dict] it knows neither the id
    nor the pipelines key: either becomes a property like any other key,
    and a pipelines key has no effect on the tasks. *)
Theorem update_document_and_legacy_keys (self : ScenarioConfig)
    (as_dict : gmap string value) (default_section : option ScenarioConfig) :
  let updated := _update self as_dict default_section in
  (∀ k, updated.2 !! k =
        if bool_decide (k ∈ reserved_keys) then None else as_dict !! k) ∧
  id updated.1 = id self ∧
  (∀ k, k = _ID_KEY ∨ k = _PIPELINES_KEY →
        updated.2 !! k = as_dict !! k ∧
        (is_Some (as_dict !! k) → _properties updated.1 !! k = as_dict !! k)) ∧
  _tasks updated.1
  = _tasks (_update self (delete _PIPELINES_KEY as_dict) default_section).1.
Proof.
  intros updated. subst updated.
  destruct (update_results self as_dict default_section)
    as (Hdoc & Hid & Hprops).
  split_and!; try done.
  - intros k. rewrite Hdoc. apply rest_lookup.
  - intros k Hk.
    assert (k ∉ reserved_keys) as Hnot.
    { unfold reserved_keys. rewrite !elem_of_cons, elem_of_nil. unfold_keys.
      destruct Hk as [-> | ->]; intros [?|[?|[?|[?|[]]]]]; discriminate. }
    rewrite Hdoc, Hprops, !lookup_union, rest_lookup.
    rewrite bool_decide_eq_false_2 by done. split; [done|].
    intros [v ->]. simpl.
    by repeat match goal with |- context [?m !! k] => destruct (m !! k) end.
  - destruct (update_attributes self as_dict default_section) as (-> & _).
    destruct (update_attributes self (delete _PIPELINES_KEY as_dict)
                default_section) as (-> & _).
    unfold_keys. by rewrite lookup_delete_ne by done.
Qed.

(* ===================================================================== *)
(** * Further properties of the comparator operations                    *)
(* ===================================================================== *)

(** X13.  On the constructor's [defaultdict], [add_comparator] under an
    absent key creates the one-element list there and touches no other
    entry, and [delete_comparator] of that key then gives back the config
    as it was. *)
Theorem comparator_add_then_delete (self : ScenarioConfig) (key : string)
    (c : value) (m : gmap string value) :
  comparators self = VDict DefaultDictList m →
  m !! key = None →
  ∃ added,
    add_comparator self key c = Ok added ∧
    comparators_lookup added key = Some (VList [c]) ∧
    (∀ k, k ≠ key → comparators_lookup added k = comparators_lookup self k) ∧
    delete_comparator added key = Ok self.
Proof.
  intros Hc Hk.
  assert (default (VList []) (m !! key) = VList []) as Hold by (by rewrite Hk).
  pose proof (add_comparator_defaultdict self key c m [] Hc Hold) as Hadd.
  eexists. split; [exact Hadd|]. unfold comparators_lookup. simpl.
  split_and!.
  - by rewrite lookup_insert_eq.
  - intros k Hne. by rewrite Hc, lookup_insert_ne.
  - unfold delete_comparator. simpl. rewrite delete_insert_id by done.
    f_equal. apply config_eq; by simpl.
Qed.

(** X14.  On the constructor's [defaultdict] with lists as values,
    additions under two different keys commute: either order gives the
    same config. *)
Theorem add_comparator_commutes (self : ScenarioConfig) (k1 k2 : string)
    (c1 c2 : value) (m : gmap string value) :
  comparators self = VDict DefaultDictList m →
  map_Forall (λ _ v, is_list v) m →
  k1 ≠ k2 →
  ∃ s1 s2 s12,
    add_comparator self k1 c1 = Ok s1 ∧
    add_comparator self k2 c2 = Ok s2 ∧
    add_comparator s1 k2 c2 = Ok s12 ∧
    add_comparator s2 k1 c1 = Ok s12.
Proof.
  intros Hc Hm Hne.
  assert (∀ k, ∃ old, default (VList []) (m !! k) = VList old) as Hold.
  { intros k. destruct (m !! k) as [v|] eqn:Hk; simpl; [|by eexists].
    exact (Hm k v Hk). }
  destruct (Hold k1) as [old1 Hold1]. destruct (Hold k2) as [old2 Hold2].
  pose proof (add_comparator_defaultdict self k1 c1 m old1 Hc Hold1) as Ha1.
  pose proof (add_comparator_defaultdict self k2 c2 m old2 Hc Hold2) as Ha2.
  eexists _, _, _. split; [exact Ha1|]. split; [exact Ha2|]. split.
  - erewrite (add_comparator_defaultdict _ k2 c2 _ old2);
      [reflexivity|by simpl|by rewrite lookup_insert_ne].
  - erewrite (add_comparator_defaultdict _ k1 c1 _ old1);
      [|by simpl|by rewrite lookup_insert_ne].
    simpl. by rewrite insert_insert_ne.
Qed.

(* ===================================================================== *)
(** * Further properties of the derived data-node set                    *)
(* ===================================================================== *)

Lemma unique_data_nodes_value (self : ScenarioConfig)
    (ts : list TaskConfig) (ds : list DataNodeConfig) :
  _tasks self = VList ((λ t, VTask t) <$> ts) →
  _additional_data_nodes self = VList ((λ x, VDataNode x) <$> ds) →
  __get_all_unique_data_nodes self
  = Ok (list_to_set ((λ x, ADataNode x) <$> ds) ∪
        list_to_set ((λ x, ADataNode x) <$>
                       (ts ≫= λ t, inputs t ++ outputs t))).
Proof.
  intros Hts Hds. unfold __get_all_unique_data_nodes.
  rewrite Hts, Hds. simpl.
  assert ((λ x, VDataNode x) <$> ds
          = (λ a, VAtom a) <$> ((λ x, ADataNode x) <$> ds)) as ->.
  { by rewrite <- list_fmap_compose. }
  rewrite mapM_hashable_atoms. simpl. apply update_from_task_configs.
Qed.

Lemma mapM_hashable_outcome (l : list value) :
  (∃ atoms, mapM hashable l = Ok atoms) ∨ mapM hashable l = Raise TypeError.
Proof.
  induction l as [|v l IH]; [left; by eexists|].
  change (mapM hashable (v :: l)) with
    (y ← hashable v; k ← mapM hashable l; mret (y :: k)).
  destruct v as [a|xs|kind m]; simpl; try by right.
  destruct IH as [[atoms ->]| ->]; simpl; [left; by eexists|by right].
Qed.

(** X16.  The derived set depends only on which task configs and which
    additional data nodes the config holds: two configs whose task lists
    have the same members and whose additional-data-node lists have the
    same members, in any order and with any repetitions, have the same
    derived set.  With no task and no additional data node the set is
    empty. *)
Theorem data_nodes_members_only (a b : ScenarioConfig)
    (ts ts' : list TaskConfig) (ds ds' : list DataNodeConfig) :
  _tasks a = VList ((λ t, VTask t) <$> ts) →
  _additional_data_nodes a = VList ((λ x, VDataNode x) <$> ds) →
  _tasks b = VList ((λ t, VTask t) <$> ts') →
  _additional_data_nodes b = VList ((λ x, VDataNode x) <$> ds') →
  (∀ t, t ∈ ts ↔ t ∈ ts') →
  (∀ x, x ∈ ds ↔ x ∈ ds') →
  data_nodes a = data_nodes b ∧
  data_node_configs a = data_node_configs b ∧
  (ts = [] → ds = [] → data_nodes a = Ok (Derived ∅)).
Proof.
  intros Hta Hda Htb Hdb Hts Hds.
  unfold data_nodes, data_node_configs, property_get.
  rewrite (unique_data_nodes_value a ts ds Hta Hda).
  rewrite (unique_data_nodes_value b ts' ds' Htb Hdb).
  assert ((list_to_set ((λ x, ADataNode x) <$> ds) ∪
           list_to_set ((λ x, ADataNode x) <$>
                          (ts ≫= λ t, inputs t ++ outputs t)) : gset atom)
          = list_to_set ((λ x, ADataNode x) <$> ds') ∪
            list_to_set ((λ x, ADataNode x) <$>
                           (ts' ≫= λ t, inputs t ++ outputs t))) as Heq.
  { apply set_eq. intros e.
    rewrite !elem_of_union, !elem_of_list_to_set, !list_elem_of_fmap.
    split.
    - intros [(x & -> & Hx)|(x & -> & Hx)]; [left|right]; exists x;
        (split; [done|]); [by apply Hds|].
      apply list_elem_of_bind in Hx as (t & Hx & Ht).
      apply list_elem_of_bind. exists t. split; [done|]. by apply Hts.
    - intros [(x & -> & Hx)|(x & -> & Hx)]; [left|right]; exists x;
        (split; [done|]); [by apply Hds|].
      apply list_elem_of_bind in Hx as (t & Hx & Ht).
      apply list_elem_of_bind. exists t. split; [done|]. by apply Hts. }
  split_and!; try by rewrite Heq.
  intros -> ->. simpl. by rewrite (left_id_L ∅ (∪)).
Qed.

(** X17.  What the accessors give on a config whose attributes [_update]
    has replaced by something else than lists of configs.  With [None] for
    tasks (as after [_update] with an explicit null under the tasks key and
    no default section) they raise [TypeError].  When the first task is an
    id (a string) rather than a task config, the [AttributeError] of the
    computation does not reach the caller: each accessor returns what
    [__getattr__] answers for its own name, the property of that name
    resolved ([None] resolved when there is none).  Neither accessor ever
    raises [AttributeError]. *)
Theorem data_nodes_raises :
  (∀ self, _tasks self = VNone →
           data_nodes self = Raise TypeError ∧
           data_node_configs self = Raise TypeError) ∧
  (∀ self as_dict,
     as_dict !! _TASKS_KEY = Some VNone →
     data_nodes (_update self as_dict None).1 = Raise TypeError ∧
     data_node_configs (_update self as_dict None).1 = Raise TypeError) ∧
  (∀ self ds s rest,
     _additional_data_nodes self = VList ((λ x, VDataNode x) <$> ds) →
     _tasks self = VList (VStr s :: rest) →
     data_nodes self = Ok (Attribute (__getattr__ self "data_nodes")) ∧
     data_node_configs self
     = Ok (Attribute (__getattr__ self "data_node_configs"))) ∧
  (∀ self, data_nodes self ≠ Raise AttributeError ∧
           data_node_configs self ≠ Raise AttributeError).
Proof.
  assert (∀ self, _tasks self = VNone →
                  __get_all_unique_data_nodes self = Raise TypeError) as Hnone.
  { intros self Ht. unfold __get_all_unique_data_nodes. rewrite Ht.
    destruct (iter (_additional_data_nodes self)) as [l|e] eqn:Hiter; simpl.
    - destruct (mapM_hashable_outcome l) as [[atoms ->]| ->]; by simpl.
    - destruct (_additional_data_nodes self) as [[]| |]; simpl in Hiter;
        by simplify_eq. }
  assert (∀ self, _tasks self = VNone →
                  data_nodes self = Raise TypeError ∧
                  data_node_configs self = Raise TypeError) as Hacc.
  { intros self Ht. unfold data_nodes, data_node_configs, property_get.
    by rewrite (Hnone self Ht). }
  split_and!.
  - exact Hacc.
  - intros self as_dict Hd. apply Hacc.
    destruct (update_attributes self as_dict None) as (-> & _).
    by rewrite Hd.
  - intros self ds s rest Hds Hts.
    assert (__get_all_unique_data_nodes self = Raise AttributeError) as Hget.
    { unfold __get_all_unique_data_nodes. rewrite Hds, Hts. simpl.
      assert ((λ x, VDataNode x) <$> ds
              = (λ a, VAtom a) <$> ((λ x, ADataNode x) <$> ds)) as ->.
      { by rewrite <- list_fmap_compose. }
      by rewrite mapM_hashable_atoms. }
    unfold data_nodes, data_node_configs, property_get. by rewrite Hget.
  - intros self. unfold data_nodes, data_node_configs, property_get.
    by destruct (__get_all_unique_data_nodes self) as [s|[]].
Qed.

(* ===================================================================== *)
(** * Invariants of the configs the class hands out                      *)
(* ===================================================================== *)

Lemma new_ScenarioConfig_inv (i : string) (ts ds freq comps : value)
    (props : gmap string value) (self : ScenarioConfig) :
  new_ScenarioConfig i ts ds freq comps props = Ok self →
  id self = i ∧ valid_identifier i = true ∧ _properties self = props ∧
  ∀ p, p ∈ parameter_names → props !! p = None.
Proof.
  unfold new_ScenarioConfig.
  destruct (existsb _ parameter_names) eqn:Hex; [done|].
  intros (m & -> & Hid & _)%init_inv. split_and!; try done.
  intros p Hp. destruct (props !! p) as [v|] eqn:Hv; [|done].
  assert (existsb (λ p, bool_decide (is_Some (props !! p))) parameter_names
          = true) as Htrue; [|by rewrite Htrue in Hex].
  apply existsb_exists. exists p. split; [by apply list_elem_of_In|].
  apply bool_decide_eq_true. by rewrite Hv.
Qed.

Lemma reserved_parameter (k : string) :
  k ∈ reserved_keys → k ∈ parameter_names.
Proof.
  unfold reserved_keys, parameter_names. unfold_keys.
  rewrite !elem_of_cons, !elem_of_nil. tauto.
Qed.

Lemma add_comparator_bag (self : ScenarioConfig) (key : string) (c : value)
    (self' : ScenarioConfig) :
  add_comparator self key c = Ok self' →
  id self' = id self ∧ _properties self' = _properties self.
Proof.
  unfold add_comparator.
  destruct (comparators_getitem self key) as [self1 r].
  destruct r as [l|]; simpl; [|done].
  destruct (list_append l c); simpl; [|done].
  destruct (comparators self1); try done. by intros [= <-].
Qed.

Lemma delete_comparator_bag (self : ScenarioConfig) (key : string)
    (self' : ScenarioConfig) :
  delete_comparator self key = Ok self' →
  id self' = id self ∧ _properties self' = _properties self.
Proof.
  unfold delete_comparator.
  destruct (comparators self) as [a|xs|kind m].
  - destruct a; try done.
    destruct (substring_of key s); [done|]. by intros [= <-].
  - destruct (existsb _ xs); [done|]. by intros [= <-].
  - by intros [= <-].
Qed.

Lemma comparators_getitem_bag (self : ScenarioConfig) (key : string) :
  id (comparators_getitem self key).1 = id self ∧
  _properties (comparators_getitem self key).1 = _properties self.
Proof.
  unfold comparators_getitem.
  destruct (comparators self) as [a|xs|[|] m]; try done.
  by destruct (defaultdict_getitem m key).
Qed.

(** X18.  Every config the class hands out has a valid identifier as its
    id, and its property bag never holds a key named tasks,
    additional_data_nodes, frequency or comparators: the constructor call
    refuses such keywords and [_update] pops these keys off the document
    before it merges the rest.  Hence [_to_dict] always shows the four
    attributes under these keys, with no property in their place. *)
Theorem produced_invariants (self : ScenarioConfig) :
  produced self →
  valid_identifier (id self) = true ∧
  (∀ k, k ∈ reserved_keys → _properties self !! k = None) ∧
  _to_dict self !! _TASKS_KEY = Some (_tasks self) ∧
  _to_dict self !! _ADDITIONAL_DATA_NODES_KEY
  = Some (_additional_data_nodes self) ∧
  _to_dict self !! _FREQUENCY_KEY = Some (frequency self) ∧
  _to_dict self !! _COMPARATOR_KEY = Some (comparators self).
Proof.
  intros Hprod.
  assert (valid_identifier (id self) = true ∧
          ∀ k, k ∈ reserved_keys → _properties self !! k = None)
    as [Hid Hbag].
  { induction Hprod as [i tasks adn freq comps props self Hnew
                       |self Hdef
                       |d i config d' self Hfrom
                       |s self _ _ Hcopy
                       |s as_dict _ [IHid IHbag]
                       |s as_dict dflt _ [IHid IHbag] _ [_ IHdflt]
                       |s _ [IHid _]
                       |s key c self _ [IHid IHbag] Hadd
                       |s key self _ [IHid IHbag] Hdel
                       |s key _ [IHid IHbag]].
    - apply new_ScenarioConfig_inv in Hnew as (-> & Hid & -> & Hp).
      split; [done|]. intros k Hk. by apply Hp, reserved_parameter.
    - apply init_inv in Hdef as (m & -> & Hid & _). by split.
    - rewrite from_dict_unfold in Hfrom. cbv zeta in Hfrom.
      assert (∃ ts ds freq comps props,
                new_ScenarioConfig i ts ds freq comps props = Ok self)
        as (ts & ds & freq & comps & props & Hnew).
      { destruct (new_shape d).
        - destruct (resolve_entry config _sections_TASK _); [|by simplify_eq].
          destruct (resolve_entry config _sections_DATA_NODE _);
            [|by simplify_eq].
          injection Hfrom as _ Hnew. by eexists _, _, _, _, _.
        - destruct (migrate_entry config _); [|by simplify_eq].
          injection Hfrom as _ Hnew. by eexists _, _, _, _, _. }
      apply new_ScenarioConfig_inv in Hnew as (-> & Hid & -> & Hp).
      split; [done|]. intros k Hk. by apply Hp, reserved_parameter.
    - apply new_ScenarioConfig_inv in Hcopy as (-> & Hid & -> & Hp).
      split; [done|]. intros k Hk. by apply Hp, reserved_parameter.
    - destruct (update_results s as_dict None) as (_ & -> & ->).
      split; [done|]. intros k Hk.
      rewrite !lookup_union, rest_lookup, bool_decide_eq_true_2 by done.
      by rewrite (IHbag k Hk), lookup_empty.
    - destruct (update_results s as_dict (Some dflt)) as (_ & -> & ->).
      split; [done|]. intros k Hk.
      rewrite !lookup_union, rest_lookup, bool_decide_eq_true_2 by done.
      unfold properties. by rewrite (IHbag k Hk), lookup_fmap, (IHdflt k Hk).
    - by split.
    - apply add_comparator_bag in Hadd as [-> ->]. by split.
    - apply delete_comparator_bag in Hdel as [-> ->]. by split.
    - destruct (comparators_getitem_bag s key) as [-> ->]. by split. }
  split; [done|]. split; [done|].
  assert (∀ k, k ∈ reserved_keys → k ∈ reserved_keys) as _ by done.
  split_and!; rewrite to_dict_lookup_reserved;
    try (apply Hbag; unfold reserved_keys; rewrite !elem_of_cons; tauto);
    by repeat case_decide.
Qed.

(* ===================================================================== *)
(** * Reading a property by name                                         *)
(* ===================================================================== *)

(** X19.  [__getattr__] reads the property bag with [None] for a missing
    name, and resolves the placeholders of what it finds; it agrees with
    the [properties] accessor on every name the bag holds.  After
    [_update], a name of the incoming document (other than the four
    reserved keys) reads as the incoming value, resolved; else a name of
    the prior bag reads as the prior value, resolved; else the name reads
    as what the default section's [properties] accessor gives for it,
    resolved: a value that comes from the default section has been
    resolved twice. *)
Theorem getattr_after_update (self : ScenarioConfig)
    (as_dict : gmap string value) (default_section : option ScenarioConfig)
    (item : string) :
  let updated := (_update self as_dict default_section).1 in
  let incoming :=
    if bool_decide (item ∈ reserved_keys) then None else as_dict !! item in
  (∀ v, properties self !! item = Some v → __getattr__ self item = v) ∧
  (_properties self !! item = None →
   __getattr__ self item = _replace_templates VNone) ∧
  (∀ v, incoming = Some v → __getattr__ updated item = _replace_templates v) ∧
  (∀ v, incoming = None → _properties self !! item = Some v →
        __getattr__ updated item = _replace_templates v) ∧
  (incoming = None → _properties self !! item = None →
   default_section = None →
   __getattr__ updated item = _replace_templates VNone) ∧
  (∀ d, incoming = None → _properties self !! item = None →
        default_section = Some d →
        __getattr__ updated item
        = _replace_templates
            (default VNone (_replace_templates <$> _properties d !! item))).
Proof.
  intros updated incoming. subst updated incoming. unfold __getattr__.
  destruct (update_results self as_dict default_section) as (_ & _ & ->).
  rewrite !lookup_union, rest_lookup. unfold properties.
  rewrite lookup_fmap. split_and!.
  - intros v. destruct (_properties self !! item); simpl; [|done].
    by intros [= <-].
  - by intros ->.
  - intros v ->. destruct (_properties self !! item); simpl.
    + by destruct (_ !! item).
    + by destruct (_ !! item).
  - intros v -> ->. simpl. by destruct (_ !! item).
  - intros -> -> ->. by rewrite lookup_empty.
  - intros d -> -> ->. rewrite lookup_fmap.
    by destruct (_properties d !! item).
Qed.

(* ===================================================================== *)
(** * The default config as a default section                            *)
(* ===================================================================== *)

(** X20.  When the name [default] is a valid identifier, [default_config]
    returns a config, and [_update] with it as the default section differs
    from [_update] with no default section only in this: tasks and
    additional_data_nodes that would be [None] become empty lists, and
    comparators that would be [None] become the empty [defaultdict]; the
    frequency and the property bag are the same. *)
Theorem default_config_as_default_section (self : ScenarioConfig)
    (as_dict : gmap string value) :
  valid_identifier _DEFAULT_KEY = true →
  ∃ dflt,
    default_config = Ok dflt ∧
    let updated := (_update self as_dict (Some dflt)).1 in
    let plain := (_update self as_dict None).1 in
    id updated = id self ∧
    _tasks updated
    = (if is_None (_tasks plain) then VList [] else _tasks plain) ∧
    _additional_data_nodes updated
    = (if is_None (_additional_data_nodes plain) then VList []
       else _additional_data_nodes plain) ∧
    frequency updated = frequency plain ∧
    comparators updated
    = (if is_None (comparators plain) then VDict DefaultDictList ∅
       else comparators plain) ∧
    _properties updated = _properties plain.
Proof.
  intros Hid. unfold default_config, __init__, _validate_id.
  rewrite Hid. simpl. eexists. split; [done|].
  unfold _update, dict_pop, properties. simpl. split_and!; try done.
  - by destruct (default (frequency self) _) as [[]| |].
  - by rewrite fmap_empty, (right_id_L ∅ (∪)).
Qed.

(* ===================================================================== *)
(** * A string in the place of a list of ids                             *)
(* ===================================================================== *)

Lemma omap_characters {A : Type} (section : gmap string A)
    (l : list ascii) :
  omap (lookup_id section) ((λ ch, AStr (String ch "")) <$> l)
  = omap (λ ch, section !! String ch "") l.
Proof.
  induction l as [|ch l IH]; [done|]. rewrite fmap_cons.
  change (omap ?f (?x :: ?l)) with
    (match f x with Some y => y :: omap f l | None => omap f l end).
  by rewrite IH.
Qed.

(** X21.  When the tasks entry of the document is a string rather than a
    list of ids, [_from_dict] iterates over its characters: every
    character is looked up as a one-character id, and the tasks of the
    result are the task configs registered under those characters, in
    order.  The id that the string spells out is not looked up. *)
Theorem from_dict_string_of_ids (d : gmap string value) (i s : string)
    (c : _Config) (section : gmap string TaskConfig) :
  d !! _TASKS_KEY = Some (VStr s) →
  d !! _ADDITIONAL_DATA_NODES_KEY = None →
  _sections_TASK c = Some section →
  valid_identifier i = true →
  comparators_accepted (default (VDict Plain ∅) (d !! _COMPARATOR_KEY)) →
  d !! "self" = None →
  ∃ d' self,
    _from_dict d i (Some c) = (d', Ok self) ∧
    _tasks self
    = VList ((λ t, VTask t) <$>
               omap (λ ch, section !! String ch "") (list_ascii_of_string s)) ∧
    _additional_data_nodes self = VList [].
Proof.
  intros Ht Ha Hsec Hid Hacc Hself. rewrite from_dict_unfold. cbv zeta.
  pose proof (λ p, final_document_parameters d p Hself) as Hpar.
  assert (new_shape d = true) as Hshape.
  { unfold new_shape. by rewrite Ht. }
  rewrite Hshape in Hpar |- *. rewrite Ht, Ha.
  change (default VNone (Some (VStr s))) with (VStr s).
  assert (resolve_entry (Some c) _sections_TASK (VStr s)
          = Ok (omap (λ ch, section !! String ch "")
                  (list_ascii_of_string s))) as ->.
  { unfold resolve_entry. destruct (truthy (VStr s)) eqn:Htruthy.
    - simpl. rewrite Hsec. simpl.
      assert ((λ ch, VStr (String ch "")) <$> list_ascii_of_string s
              = (λ a, VAtom a) <$>
                  ((λ ch, AStr (String ch "")) <$> list_ascii_of_string s))
        as ->.
      { by rewrite <- list_fmap_compose. }
      by rewrite resolve_atoms, omap_characters.
    - simpl in Htruthy. apply negb_false_iff, String.eqb_eq in Htruthy.
      by subst s. }
  unfold resolve_entry. simpl.
  rewrite new_ScenarioConfig_lists by done. by eexists _, _.
Qed.

(* ===================================================================== *)
(** * What [_clean] leaves                                               *)
(* ===================================================================== *)

(** X1.  [_clean] keeps the id and nothing else: two configs with the same
    id are equal once cleaned, so cleaning twice is cleaning once and
    cleaning undoes any [_update].  The cleaned config has no data node,
    every name reads as the resolution of [None], and [_to_dict] gives
    exactly the four reserved keys with empty lists, [None] and an empty
    dict.  Its comparators are a plain dict: adding or reading under any
    key raises [KeyError], until [__copy__] (for a valid id) builds the
    empty [defaultdict] again. *)
Theorem clean_resets (self : ScenarioConfig) :
  (∀ other, id other = id self → _clean other = _clean self) ∧
  _clean (_clean self) = _clean self ∧
  (∀ as_dict default_section,
     _clean (_update self as_dict default_section).1 = _clean self) ∧
  data_nodes (_clean self) = Ok (Derived ∅) ∧
  (∀ item, __getattr__ (_clean self) item = _replace_templates VNone) ∧
  _to_dict (_clean self)
  = <[_COMPARATOR_KEY := VDict Plain ∅]>
      (<[_TASKS_KEY := VList []]>
         (<[_ADDITIONAL_DATA_NODES_KEY := VList []]>
            (<[_FREQUENCY_KEY := VNone]> ∅))) ∧
  (∀ key c, add_comparator (_clean self) key c = Raise KeyError) ∧
  (∀ key, (comparators_getitem (_clean self) key).2 = Raise KeyError) ∧
  (valid_identifier (id self) = true →
   ∀ copy, __copy__ (_clean self) = Ok copy →
           ∀ key c, ∃ added, add_comparator copy key c = Ok added ∧
                             comparators_lookup added key = Some (VList [c])).
Proof.
  split_and!.
  - intros other Hid. unfold _clean. by rewrite Hid.
  - done.
  - intros as_dict default_section. unfold _clean.
    by destruct (update_results self as_dict default_section) as (_ & -> & _).
  - done.
  - done.
  - unfold _to_dict, _clean. simpl. by rewrite (left_id_L ∅ (∪)).
  - done.
  - done.
  - intros Hid copy Hcopy key c. unfold __copy__, _clean in Hcopy.
    simpl in Hcopy. rewrite new_ScenarioConfig_lists in Hcopy; try done;
      [|by left]. injection Hcopy as <-.
    eexists. split.
    + by apply (add_comparator_defaultdict _ key c ∅ []).
    + unfold comparators_lookup. simpl. by rewrite lookup_insert_eq.
Qed.

End Properties.

(* ===================================================================== *)
(** * Concrete instances                                                 *)
(* ===================================================================== *)

Section Instances.
#[local] Existing Instance sample_collaborators.

(** A freshly constructed config with no references. *)
Example init_empty :
  __init__ "scenario" VNone VNone VNone VNone ∅
  = Ok (mkScenarioConfig "scenario" (VList []) (VList []) VNone
          (VDict DefaultDictList ∅) ∅).
Proof. reflexivity. Qed.

(** [_clean] leaves a plain dict: adding a comparator under a new key then
    raises [KeyError], and so does reading one. *)
Example clean_then_add_raises :
  add_comparator
    (_clean (mkScenarioConfig "scenario" (VList []) (VList []) VNone
               (VDict DefaultDictList ∅) ∅)) "dn1" f1
  = Raise KeyError.
Proof. reflexivity. Qed.

(** [add_comparator] takes any key. *)
Example add_comparator_any_key :
  add_comparator
    (mkScenarioConfig "scenario" (VList []) (VList []) VNone
       (VDict DefaultDictList ∅) ∅) "not valid" f1
  = Ok (mkScenarioConfig "scenario" (VList []) (VList []) VNone
          (VDict DefaultDictList {["not valid" := VList [f1]]}) ∅).
Proof. reflexivity. Qed.

(** ** C1 *)

(** The claim as stated fails: a config holding [T1], registered under its
    id, serialised by [_to_dict] and read back by [_from_dict], has no
    task. *)
Lemma C1_round_trip_counterexample :
  ∃ S d' S',
    __init__ "scenario" (VTask task_T1) VNone VNone VNone ∅ = Ok S ∧
    _tasks S = VList [VTask task_T1] ∧
    _sections_TASK sample_config
      = Some (<["T1" := task_T1]> (<["T2" := task_T2]> ∅)) ∧
    (<["T1" := task_T1]> (<["T2" := task_T2]> ∅) : gmap string TaskConfig)
      !! task_id task_T1 = Some task_T1 ∧
    _to_dict S !! _TASKS_KEY = Some (VList [VTask task_T1]) ∧
    _from_dict (_to_dict S) (id S) (Some sample_config) = (d', Ok S') ∧
    _tasks S' = VList [] ∧
    _tasks S' ≠ _tasks S.
Proof.
  eexists _, _, _. split_and!; try reflexivity. discriminate.
Qed.

Lemma C1_round_trip_witness :
  ∃ d' S',
    _from_dict
      (<[_TASKS_KEY := VList [VStr "T1"; VStr "T2"]]>
         (<[_ADDITIONAL_DATA_NODES_KEY := VList [VStr "C"]]>
            (_to_dict sample_scenario)))
      "scenario" (Some sample_config) = (d', Ok S') ∧
    _tasks S' = _tasks sample_scenario ∧
    _additional_data_nodes S' = _additional_data_nodes sample_scenario ∧
    frequency S' = frequency sample_scenario ∧
    comparators S' = VDict DefaultDictList {["A" := VList [f0]]}.
Proof.
  destruct (C1_round_trip_through_ids sample_scenario sample_config
              (<["T1" := task_T1]> (<["T2" := task_T2]> ∅))
              (<["A" := dn_A]> (<["B" := dn_B]> (<["C" := dn_C]> ∅)))
              [task_T1; task_T2] [dn_C] DefaultDictList
              {["A" := VList [f0]]})
    as (_ & _ & _ & Hids).
  - reflexivity.
  - reflexivity.
  - reflexivity.
  - apply map_Forall_singleton. split; [reflexivity|by eexists].
  - reflexivity.
  - intros k Hk. unfold reserved_keys in Hk.
    rewrite !elem_of_cons, elem_of_nil in Hk.
    destruct Hk as [->|[->|[->|[->|[->|[]]]]]]; reflexivity.
  - reflexivity.
  - reflexivity.
  - repeat constructor.
  - repeat constructor.
  - exact Hids.
Defined.

(** ** C2 *)

Lemma C2_default_fallback_witness :
  frequency default_weekly = VFrequency WEEKLY ∧
  (∅ : gmap string value) !! _FREQUENCY_KEY = None ∧
  frequency empty_scenario = VNone ∧
  frequency (_update empty_scenario ∅ (Some default_weekly)).1
  = VFrequency WEEKLY.
Proof.
  do 3 (split; [reflexivity|]).
  apply (proj2 (proj2 (proj2 (proj2
           (C2_update_structured_fields empty_scenario ∅
              (Some default_weekly))))) default_weekly); reflexivity.
Defined.

(** ** C4 *)


(** ** C5 *)

(** The claim as stated fails: with a registry that has no task section,
    or with no registry, a document that lists a task id makes [_from_dict]
    raise, whatever the id. *)
Lemma C5_unresolved_ids_counterexample :
  new_document !! _TASKS_KEY
  = Some (VList [VStr "T1"; VStr "ghost"; VStr "T2"]) ∧
  section_of (Some sample_config_no_tasks) _sections_TASK !! "ghost"
  = (None : option TaskConfig) ∧
  (_from_dict new_document "scenario" (Some sample_config_no_tasks)).2
  = Raise KeyError ∧
  (_from_dict new_document "scenario" None).2 = Raise AttributeError.
Proof.
  split_and!; reflexivity.
Qed.

(** The ids [ghost] and [nowhere] do not resolve and are dropped; the
    registry needs no pipeline section for a document of the new shape. *)
Lemma C5_unresolved_ids_witness :
  ∃ d' S,
    _from_dict new_document "scenario" (Some sample_config_no_pipelines)
    = (d', Ok S) ∧
    _tasks S = VList [VTask task_T1; VTask task_T2] ∧
    _additional_data_nodes S = VList [VDataNode dn_C].
Proof.
  refine (C5_unresolved_ids_dropped new_document "scenario"
            (Some sample_config_no_pipelines)
            [AStr "T1"; AStr "ghost"; AStr "T2"] [AStr "nowhere"; AStr "C"] []
            _ _ _ _ _ _ _ _ _); try reflexivity.
  - intros _. by eexists _, _.
  - intros _. by eexists _, _.
  - intros Hshape. discriminate Hshape.
  - left. reflexivity.
Defined.

(** ** C6 *)



(** ** C7 *)

(** The claim as stated fails: [_update] installs the comparators of the
    incoming document with a key that is no valid identifier. *)
Lemma C7_comparator_keys_counterexample :
  comparator_keys_valid empty_scenario ∧
  valid_identifier "not valid" = false ∧
  comparators
    (_update empty_scenario
       {[_COMPARATOR_KEY := VDict Plain {["not valid" := VList [f0]]}]}
       None).1
  = VDict Plain {["not valid" := VList [f0]]}.
Proof.
  split_and!; try reflexivity.
  exists DefaultDictList, ∅. split; [reflexivity|apply map_Forall_empty].
Qed.

Lemma C7_comparator_keys_witness :
  __init__ "scenario" VNone VNone VNone (VDict Plain {["A" := f0]}) ∅
  = Ok (mkScenarioConfig "scenario" (VList []) (VList []) VNone
          (VDict DefaultDictList {["A" := VList [f0]]}) ∅) ∧
  comparator_keys_valid
    (mkScenarioConfig "scenario" (VList []) (VList []) VNone
       (VDict DefaultDictList {["A" := VList [f0]]}) ∅) ∧
  __init__ "scenario" VNone VNone VNone (VDict Plain {["not valid" := f0]}) ∅
  = Raise InvalidConfigurationId.
Proof.
  split; [reflexivity|]. split.
  - refine (proj1 C7_comparator_keys_validated "scenario" VNone VNone VNone
              (VDict Plain {["A" := f0]}) ∅ _ _).
    reflexivity.
  - refine (proj1 (proj2 C7_comparator_keys_validated) "scenario" VNone VNone
              VNone Plain {["not valid" := f0]} ∅ "not valid" _ _).
    + by eexists.
    + reflexivity.
Defined.

(** ** C8 *)

(** The claim as stated fails: after construction the tasks are a list; an
    incoming document with an explicit [None] under the tasks key and no
    default section leaves [None] there. *)
Lemma C8_reference_lists_counterexample :
  ∃ S,
    __init__ "scenario" (VTask task_T1) VNone VNone VNone ∅ = Ok S ∧
    _tasks S = VList [VTask task_T1] ∧
    _tasks (_update S {[_TASKS_KEY := VNone]} None).1 = VNone.
Proof.
  eexists. split_and!; reflexivity.
Qed.

Lemma C8_reference_lists_witness :
  (∃ S, __init__ "scenario" (VTask task_T1) VNone VNone VNone ∅ = Ok S ∧
        _tasks S = VList [VTask task_T1] ∧
        _additional_data_nodes S = VList []) ∧
  is_list (_tasks (_update sample_scenario {[_TASKS_KEY := VNone]}
                     (Some default_weekly)).1).
Proof.
  split.
  - exists (mkScenarioConfig "scenario" (VList [VTask task_T1]) (VList [])
              VNone (VDict DefaultDictList ∅) ∅).
    assert (__init__ "scenario" (VTask task_T1) VNone VNone VNone ∅
            = Ok (mkScenarioConfig "scenario" (VList [VTask task_T1])
                    (VList []) VNone (VDict DefaultDictList ∅) ∅)) as Hinit
      by reflexivity.
    split; [exact Hinit|].
    destruct (proj1 C8_reference_lists_list_typed "scenario"
                (VTask task_T1) VNone VNone VNone ∅ _ Hinit)
      as (_ & Hone & _ & Hnone & _).
    split; [exact (Hone task_T1 eq_refl)|exact (Hnone eq_refl)].
  - refine (proj1 (proj2 C8_reference_lists_list_typed) sample_scenario
              {[_TASKS_KEY := VNone]} (Some default_weekly) _ _).
    + by eexists.
    + right. right. split; [reflexivity|].
      exists default_weekly. split; [reflexivity|by eexists].
Defined.

(** ** C9 *)



(** ** C10 *)

(** The claim as stated fails: a pipelines key beside a tasks key is still
    in the document after the call, and is a property of the result. *)
Lemma C10_from_dict_counterexample :
  ∃ d' S,
    _from_dict mixed_document "scenario" (Some sample_config) = (d', Ok S) ∧
    d' !! _PIPELINES_KEY = Some (VList [VStr "P1"]) ∧
    _properties S !! _PIPELINES_KEY = Some (VList [VStr "P1"]).
Proof.
  eexists _, _. split_and!; reflexivity.
Qed.

Lemma C10_from_dict_witness :
  ∃ d' S,
    _from_dict new_document "scenario" (Some sample_config) = (d', Ok S) ∧
    (∀ k, d' !! k =
          if bool_decide (k ∈ popped_keys new_document) then None
          else new_document !! k) ∧
    _properties S = d' ∧
    d' = {["note" := VStr "monthly sales"]}.
Proof.
  assert (_from_dict new_document "scenario" (Some sample_config)
          = ({["note" := VStr "monthly sales"]},
             Ok (mkScenarioConfig "scenario"
                   (VList [VTask task_T1; VTask task_T2])
                   (VList [VDataNode dn_C]) (VFrequency WEEKLY)
                   (VDict DefaultDictList ∅)
                   {["note" := VStr "monthly sales"]}))) as Hfd
    by reflexivity.
  eexists _, _. split; [exact Hfd|].
  destruct (C10_from_dict_pops_document new_document "scenario"
              (Some sample_config) _ _ Hfd) as (Hk & Hp & _).
  split; [exact Hk|]. split; [exact Hp|reflexivity].
Defined.

(** ** Deserialisation, further instances *)

(** An empty tasks list needs no registry. *)
Lemma from_dict_needs_no_registry_witness :
  ∃ d' S,
    _from_dict mixed_document "scenario" None = (d', Ok S) ∧
    _tasks S = VList [] ∧
    _additional_data_nodes S = VList [] ∧
    frequency S = VNone ∧
    _properties S = d'.
Proof.
  refine (from_dict_needs_no_registry mixed_document "scenario" None
            _ _ _ _ _ _); try reflexivity.
  - intros Hshape. discriminate Hshape.
  - left. reflexivity.
Defined.

(** Ids under the tasks key with no registry, and with a registry that has
    no task section. *)
Lemma from_dict_tasks_errors_witness :
  _from_dict new_document "scenario" None
  = (delete _TASKS_KEY (delete _ID_KEY new_document), Raise AttributeError) ∧
  _from_dict new_document "scenario" (Some (mk_Config None None None))
  = (delete _TASKS_KEY (delete _ID_KEY new_document), Raise KeyError).
Proof.
  assert (new_document !! _TASKS_KEY
          = Some (VList [VStr "T1"; VStr "ghost"; VStr "T2"])) as Hv
    by reflexivity.
  destruct (from_dict_tasks_errors new_document "scenario" _ Hv eq_refl)
    as (Hnone & Hsection & _).
  split; [exact Hnone|]. apply Hsection. reflexivity.
Defined.

Lemma from_dict_sound_witness :
  ∃ d' S,
    _from_dict new_document "scenario" (Some sample_config) = (d', Ok S) ∧
    constructed S ∧
    id S = "scenario" ∧
    ∃ ts ds,
      _tasks S = VList ((λ t, VTask t) <$> ts) ∧
      _additional_data_nodes S = VList ((λ x, VDataNode x) <$> ds) ∧
      Forall (known_task (Some sample_config)) ts ∧
      Forall (known_data_node (Some sample_config)) ds.
Proof.
  assert (_from_dict new_document "scenario" (Some sample_config)
          = ({["note" := VStr "monthly sales"]},
             Ok (mkScenarioConfig "scenario"
                   (VList [VTask task_T1; VTask task_T2])
                   (VList [VDataNode dn_C]) (VFrequency WEEKLY)
                   (VDict DefaultDictList ∅)
                   {["note" := VStr "monthly sales"]}))) as Hfd
    by reflexivity.
  eexists _, _. split; [exact Hfd|].
  destruct (from_dict_sound new_document "scenario" (Some sample_config)
              _ _ Hfd) as (Hc & Hi & _ & Hknown).
  split; [exact Hc|]. split; [exact Hi|exact Hknown].
Defined.

(** A pipelines key beside a tasks key stays in the document and shows in
    the serialised result. *)
Lemma from_dict_to_dict_witness :
  ∃ d' S,
    _from_dict mixed_document "scenario" (Some sample_config) = (d', Ok S) ∧
    (∀ k, k ∉ document_keys → _to_dict S !! k = mixed_document !! k) ∧
    _to_dict S !! _TASKS_KEY = Some (VList []) ∧
    _to_dict S !! _ID_KEY = None ∧
    _to_dict S !! _PIPELINES_KEY = Some (VList [VStr "P1"]).
Proof.
  assert (_from_dict mixed_document "scenario" (Some sample_config)
          = ({["pipelines" := VList [VStr "P1"]]},
             Ok (mkScenarioConfig "scenario" (VList []) (VList []) VNone
                   (VDict DefaultDictList ∅)
                   {["pipelines" := VList [VStr "P1"]]}))) as Hfd
    by reflexivity.
  eexists _, _. split; [exact Hfd|].
  destruct (from_dict_to_dict mixed_document "scenario" (Some sample_config)
              _ _ Hfd) as (Hk & Ht & _ & _ & _ & Hi & Hp).
  split; [exact Hk|]. split; [exact Ht|]. split; [exact Hi|exact Hp].
Defined.

(** A string under the tasks key: [T] and [1] are looked up, [T1] is not. *)
Lemma from_dict_string_of_ids_witness :
  ∃ d' S,
    _from_dict string_document "scenario" (Some sample_config) = (d', Ok S) ∧
    _tasks S = VList [] ∧
    _additional_data_nodes S = VList [].
Proof.
  refine (from_dict_string_of_ids string_document "scenario" "T1"
            sample_config (<["T1" := task_T1]> (<["T2" := task_T2]> ∅))
            _ _ _ _ _ _); try reflexivity.
  left. reflexivity.
Defined.

(** ** Construction and copy, further instances *)

Lemma init_outcomes_witness :
  (∃ S, __init__ "scenario" VNone VNone VNone
          (VDict Plain {["A" := f0]}) ∅ = Ok S ∧
        comparators S = VDict DefaultDictList {["A" := VList [f0]]}) ∧
  __init__ "not valid" VNone VNone VNone (VDict Plain ∅) ∅
  = Raise InvalidConfigurationId ∧
  __init__ "scenario" VNone VNone VNone (VDict Plain {["not valid" := f0]}) ∅
  = Raise InvalidConfigurationId ∧
  __init__ "scenario" VNone VNone VNone (VStr "A") ∅ = Raise AttributeError ∧
  __init__ "scenario" VNone VNone VNone (VTask task_T1) ∅ = Raise TypeError.
Proof.
  split; [|split; [|split; [|split]]].
  - destruct (proj1 (init_outcomes "scenario" VNone VNone VNone ∅)
                Plain {["A" := f0]}) as (S & HS & Hc & _).
    + apply map_Forall_singleton. reflexivity.
    + reflexivity.
    + exists S. split; [exact HS|exact Hc].
  - apply (proj1 (proj2 (init_outcomes "not valid" VNone VNone VNone ∅))).
    + apply map_Forall_empty.
    + reflexivity.
  - apply (proj1 (proj2 (proj2
             (init_outcomes "scenario" VNone VNone VNone ∅)))
             Plain {["not valid" := f0]} "not valid").
    + exists f0. reflexivity.
    + reflexivity.
  - apply (proj1 (proj2 (proj2 (proj2
             (init_outcomes "scenario" VNone VNone VNone ∅))))).
    + reflexivity.
    + discriminate.
    + discriminate.
  - apply (proj1 (proj2 (proj2 (proj2 (proj2
             (init_outcomes "scenario" VNone VNone VNone ∅)))))).
Defined.

Lemma copy_equal_witness :
  __copy__ sample_scenario = Ok sample_scenario ∧
  __copy__ (_clean sample_scenario) = Ok empty_scenario.
Proof.
  destruct (copy_equal sample_scenario) as [Hcopy Hclean]. split.
  - apply Hcopy.
    + split; [reflexivity|]. split; [by eexists|]. split; [by eexists|].
      eexists. split; [reflexivity|]. apply map_Forall_singleton.
      split; [reflexivity|by eexists].
    + intros p Hp. unfold parameter_names in Hp.
      rewrite !elem_of_cons, elem_of_nil in Hp.
      destruct Hp as [->|[->|[->|[->|[->|[->|[]]]]]]]; reflexivity.
  - apply Hclean. reflexivity.
Defined.

(** After [_update] with a document that has an id key, [__copy__] raises. *)
Lemma copy_parameter_property_witness :
  __copy__ (_update sample_scenario {["id" := VStr "scenario"]} None).1
  = Raise TypeError.
Proof.
  apply (proj2 copy_parameter_property). left. eexists. reflexivity.
Defined.

(** ** [_update], further instances *)

Lemma update_with_to_dict_witness :
  _tasks (_update empty_scenario (_to_dict sample_scenario) None).1
  = _tasks sample_scenario ∧
  _properties (_update empty_scenario (_to_dict sample_scenario) None).1
  = {["note" := VStr "monthly sales"]} ∧
  (_update sample_scenario (_to_dict sample_scenario) None).1
  = sample_scenario.
Proof.
  assert (∀ k, k ∈ reserved_keys → _properties sample_scenario !! k = None)
    as Hres.
  { intros k Hk. unfold reserved_keys in Hk.
    rewrite !elem_of_cons, elem_of_nil in Hk.
    destruct Hk as [->|[->|[->|[->|[]]]]]; reflexivity. }
  pose proof (update_with_to_dict empty_scenario sample_scenario None Hres)
    as Hw.
  cbv zeta in Hw. destruct Hw as (Ht & _ & _ & _ & Hp & _ & Hsame).
  split; [exact Ht|]. split; [exact Hp|exact Hsame].
Defined.

Lemma default_config_as_default_section_witness :
  ∃ dflt,
    default_config = Ok dflt ∧
    _tasks (_update sample_scenario null_tasks_document (Some dflt)).1
    = VList [] ∧
    _tasks (_update sample_scenario null_tasks_document None).1 = VNone.
Proof.
  assert (valid_identifier _DEFAULT_KEY = true) as Hvalid by reflexivity.
  destruct (default_config_as_default_section sample_scenario
              null_tasks_document Hvalid) as (dflt & Hd & Hrest).
  cbv zeta in Hrest. destruct Hrest as (_ & Ht & _).
  exists dflt. split; [exact Hd|]. split; [exact Ht|reflexivity].
Defined.

(** ** Comparators and data nodes, further instances *)

Lemma comparator_add_then_delete_witness :
  ∃ added,
    add_comparator sample_scenario "B" f1 = Ok added ∧
    comparators_lookup added "B" = Some (VList [f1]) ∧
    comparators_lookup added "A" = Some (VList [f0]) ∧
    delete_comparator added "B" = Ok sample_scenario.
Proof.
  destruct (comparator_add_then_delete sample_scenario "B" f1
              {["A" := VList [f0]]} eq_refl eq_refl)
    as (added & Hadd & Hnew & Hframe & Hdel).
  exists added. split; [exact Hadd|]. split; [exact Hnew|].
  split; [|exact Hdel]. rewrite (Hframe "A"); [reflexivity|discriminate].
Defined.

Lemma add_comparator_commutes_witness :
  ∃ s1 s2 s12,
    add_comparator sample_scenario "A" f1 = Ok s1 ∧
    add_comparator sample_scenario "B" f2 = Ok s2 ∧
    add_comparator s1 "B" f2 = Ok s12 ∧
    add_comparator s2 "A" f1 = Ok s12.
Proof.
  refine (add_comparator_commutes sample_scenario "A" "B" f1 f2
            {["A" := VList [f0]]} eq_refl _ _).
  - apply map_Forall_singleton. by eexists.
  - discriminate.
Defined.

Lemma data_nodes_members_only_witness :
  data_nodes sample_scenario = data_nodes shuffled_scenario ∧
  data_node_configs sample_scenario = data_node_configs shuffled_scenario.
Proof.
  destruct (data_nodes_members_only sample_scenario shuffled_scenario
              [task_T1; task_T2] [task_T2; task_T1; task_T2]
              [dn_C] [dn_C; dn_C] eq_refl eq_refl eq_refl eq_refl)
    as (Hnodes & Hconfigs & _).
  - intros t. rewrite !elem_of_cons, !elem_of_nil. tauto.
  - intros x. rewrite !elem_of_cons, !elem_of_nil. tauto.
  - split; [exact Hnodes|exact Hconfigs].
Defined.

(** A null under the tasks key, and a task id in the tasks list with a
    property named [data_nodes]. *)
Lemma data_nodes_raises_witness :
  data_nodes (_update sample_scenario null_tasks_document None).1
  = Raise TypeError ∧
  data_nodes ids_scenario = Ok (Attribute (VInt 5)) ∧
  data_node_configs ids_scenario = Ok (Attribute VNone).
Proof.
  destruct data_nodes_raises as (_ & Hnull & Hids & _).
  split; [apply Hnull; reflexivity|].
  exact (Hids ids_scenario [] "T1" [] eq_refl eq_refl).
Defined.

(** ** Invariants, an instance *)

Lemma produced_invariants_witness :
  produced (_update sample_scenario mixed_document (Some default_weekly)).1 ∧
  valid_identifier
    (id (_update sample_scenario mixed_document (Some default_weekly)).1)
  = true ∧
  (∀ k, k ∈ reserved_keys →
        _properties
          (_update sample_scenario mixed_document (Some default_weekly)).1
        !! k = None) ∧
  _to_dict (_update sample_scenario mixed_document (Some default_weekly)).1
  !! _TASKS_KEY = Some (VList []).
Proof.
  assert (produced
            (_update sample_scenario mixed_document (Some default_weekly)).1)
    as Hprod.
  { apply produced_update_default.
    - apply (produced_new "scenario" (VList [VTask task_T1; VTask task_T2])
               (VDataNode dn_C) (VFrequency WEEKLY)
               (VDict Plain {["A" := f0]})
               {["note" := VStr "monthly sales"]}).
      reflexivity.
    - apply (produced_new "default" VNone VNone (VFrequency WEEKLY) VNone
               {["owner" := VStr "ops"]}).
      reflexivity. }
  destruct (produced_invariants _ Hprod) as (Hid & Hbag & Ht & _).
  split; [exact Hprod|]. split; [exact Hid|]. split; [exact Hbag|exact Ht].
Defined.

(** ** Reads, instances *)

(** The incoming value wins over the prior one, and a name only the
    default section has is read from there. *)
Lemma getattr_after_update_witness :
  __getattr__
    (_update sample_scenario {["note" := VStr "weekly sales"]}
       (Some default_weekly)).1 "note" = VStr "weekly sales" ∧
  __getattr__
    (_update sample_scenario {["note" := VStr "weekly sales"]}
       (Some default_weekly)).1 "owner" = VStr "ops" ∧
  __getattr__ sample_scenario "owner" = VNone.
Proof.
  destruct (getattr_after_update sample_scenario
              {["note" := VStr "weekly sales"]} (Some default_weekly) "note")
    as (_ & _ & Hincoming & _).
  destruct (getattr_after_update sample_scenario
              {["note" := VStr "weekly sales"]} (Some default_weekly) "owner")
    as (_ & Hmissing & _ & _ & _ & Hdefault).
  split; [apply Hincoming; reflexivity|].
  split; [apply (Hdefault default_weekly); reflexivity|].
  apply Hmissing. reflexivity.
Defined.

End Instances.
